(** * pymodbus3.mei_message: the Read Device Identification codec

    A shallow embedding of [pymodbus3/mei_message.py] and the properties
    of its request and response codecs and of the RTU frame-size
    calculation.

    Python integers are [Z], a [bytes] object is a list of [Byte.byte],
    the [information] dict is an association list in insertion order and
    a raised exception is the [Raise] outcome of the [result] monad. *)

From Stdlib Require Import ZArith List Lia Bool.
From Stdlib.Strings Require Import Byte.
From Stdlib Require String Ascii DecimalString DecimalZ.
From Equations Require Import Equations.
Import ListNotations.
Local Open Scope Z_scope.

(** ** Exceptions and the result monad *)

(** The exceptions the module can raise: [struct.error] from
    [struct.pack] and [struct.unpack], [IndexError] from indexing. *)
Inductive exn : Type :=
| struct_error
| IndexError.

Inductive result (A : Type) : Type :=
| Ok (a : A)
| Raise (e : exn).

Arguments Ok {A} a.
Arguments Raise {A} e.

Definition bind {A B : Type} (m : result A) (k : A -> result B) : result B :=
  match m with
  | Ok a => k a
  | Raise e => Raise e
  end.

Notation "x <- m ;; k" := (bind m (fun x => k))
  (at level 61, m at next level, right associativity).
Notation "' p <- m ;; k" := (bind m (fun x => let p := x in k))
  (at level 61, p pattern, m at next level, right associativity).

(** The value under scrutiny together with the equation that names it,
    for the termination argument of a loop that branches on it. *)
Definition inspect {A : Type} (a : A) : {b : A | a = b} := exist _ a eq_refl.

(** ** Byte strings *)

Definition bytes : Type := list byte.

Definition Z_of_byte (b : byte) : Z := Z.of_N (Byte.to_N b).

(** [len(x)] *)
Definition len {A : Type} (l : list A) : Z := Z.of_nat (length l).

(** A slice bound as Python normalises it against a length [n]: a negative
    bound counts from the end, and every bound is clamped to [0..n]. *)
Definition slice_index (i n : Z) : Z :=
  if i <? 0 then Z.max 0 (n + i) else Z.min i n.

(** [data[lo:hi]] *)
Definition slice {A : Type} (data : list A) (lo hi : Z) : list A :=
  let lo' := slice_index lo (len data) in
  let hi' := slice_index hi (len data) in
  firstn (Z.to_nat (hi' - lo')) (skipn (Z.to_nat lo') data).

(** [data[i]] on a bytes object: an int, or [IndexError] out of range. *)
Definition getitem (data : bytes) (i : Z) : result Z :=
  let j := if i <? 0 then len data + i else i in
  if (0 <=? j) && (j <? len data) then
    match nth_error data (Z.to_nat j) with
    | Some b => Ok (Z_of_byte b)
    | None => Raise IndexError
    end
  else Raise IndexError.

(** ** The [struct] module, for the formats the source uses

    Every format of the source is ['>'] followed by [B]s: unsigned bytes,
    no padding. *)
Module pystruct.

(** One [B] item: the argument must lie in [0..255]. *)
Definition pack_B (x : Z) : result byte :=
  if (0 <=? x) && (x <=? 255) then
    match Byte.of_N (Z.to_N x) with
    | Some b => Ok b
    | None => Raise struct_error
    end
  else Raise struct_error.

(** [struct.pack('>B...B', *args)], one [B] per argument. *)
Fixpoint pack (args : list Z) : result bytes :=
  match args with
  | [] => Ok []
  | x :: rest =>
      b <- pack_B x ;;
      bs <- pack rest ;;
      Ok (b :: bs)
  end.

(** [struct.unpack('>BB', data)]: the buffer must hold exactly 2 bytes. *)
Definition unpack_BB (data : bytes) : result (Z * Z) :=
  match data with
  | [a; b] => Ok (Z_of_byte a, Z_of_byte b)
  | _ => Raise struct_error
  end.

(** [struct.unpack('>BBB', data)]: exactly 3 bytes. *)
Definition unpack_BBB (data : bytes) : result (Z * Z * Z) :=
  match data with
  | [a; b; c] => Ok (Z_of_byte a, Z_of_byte b, Z_of_byte c)
  | _ => Raise struct_error
  end.

(** [struct.unpack('>BBBBBB', data)]: exactly 6 bytes. *)
Definition unpack_BBBBBB (data : bytes) : result (Z * Z * Z * Z * Z * Z) :=
  match data with
  | [a; b; c; d; e; f] =>
      Ok (Z_of_byte a, Z_of_byte b, Z_of_byte c,
          Z_of_byte d, Z_of_byte e, Z_of_byte f)
  | _ => Raise struct_error
  end.

End pystruct.

(** ** Dicts in insertion order *)

(** A dict from object ids to payloads, as the list of its items in
    iteration order; the keys of a dict are pairwise distinct. *)
Definition dict : Type := list (Z * bytes).

(** [d[k] = v]: an existing key keeps its place and takes the new value,
    a new key goes to the end. *)
Fixpoint setitem (d : dict) (k : Z) (v : bytes) : dict :=
  match d with
  | [] => [(k, v)]
  | (k', v') :: rest =>
      if k' =? k then (k, v) :: rest else (k', v') :: setitem rest k v
  end.

Definition keys (d : dict) : list Z := map fst d.

(** [d[k] = v] for each item [(k, v)] of a sequence, in order. *)
Definition setitems (d : dict) (items : list (Z * bytes)) : dict :=
  fold_left (fun d item => setitem d (fst item) (snd item)) items d.

(** The bytes that a sequence of objects takes on the wire: two bytes of
    [object_id] and [object_length], then the payload, for each. *)
Definition objects_size (items : list (Z * bytes)) : Z :=
  fold_right (fun item total => 2 + len (snd item) + total) 0 items.

(** [d.get(k)] *)
Fixpoint dict_get (d : dict) (k : Z) : option bytes :=
  match d with
  | [] => None
  | (k', v) :: rest => if k' =? k then Some v else dict_get rest k
  end.

(** The payload of the last item with key [k] in a sequence of items. *)
Definition last_payload (items : list (Z * bytes)) (k : Z) : option bytes :=
  option_map snd (find (fun item => fst item =? k) (rev items)).

(** [x or default] on an optional int: [None] and [0] are falsy. *)
Definition int_or (x : option Z) (default : Z) : Z :=
  match x with
  | Some v => if v =? 0 then default else v
  | None => default
  end.

(** [x or {}] on an optional dict: [None] and the empty dict are falsy. *)
Definition dict_or_empty (x : option dict) : dict :=
  match x with
  | Some (item :: rest) => item :: rest
  | _ => []
  end.

(** ['{0}'.format(n)] on an int: its decimal digits, after a minus sign
    when it is negative. *)
Definition format_int (n : Z) : String.string :=
  DecimalString.NilZero.string_of_int (Z.to_int n).

(** Whether the character [c] occurs in the string [s]. *)
Fixpoint occurs (c : Ascii.ascii) (s : String.string) : bool :=
  match s with
  | String.EmptyString => false
  | String.String a rest => Ascii.eqb a c || occurs c rest
  end.

(** ** Constants of [pymodbus3.constants] *)

(** Modelled from the spec: [pymodbus3.constants] is not among the sources.
    The data model lists the read codes as Basic=0, Regular=1, Extended=2,
    Individual=3.  The codec below takes [DeviceInformation.Basic] as a
    parameter; this value instantiates it in concrete runs. *)
Module DeviceInformation.
Definition Basic : Z := 0.
End DeviceInformation.

(** Modelled from the spec: [pymodbus3.constants] is not among the sources.
    The data model gives the flag as Nothing=0. *)
Module MoreData.
Definition Nothing : Z := 0.
End MoreData.

(** ** ReadDeviceInformationResponse *)
Module ReadDeviceInformationResponse.

(** The attributes of an instance that this module reads and writes; those
    of the base class [ModbusResponse] are left out.  [sub_function_code]
    is the class attribute [0x0e] until [decode] assigns it on the
    instance. *)
Record t : Type := mk {
  sub_function_code : Z;
  read_code : Z;
  information : dict;
  number_of_objects : Z;
  conformity : Z;
  next_object_id : Z;
  more_follows : Z
}.

Definition function_code : Z := 0x2b.

(** The [while count > 0] loop of [calculate_rtu_frame_size]; [count]
    goes down by one in each round, so the loop recurses on it. *)
Fixpoint calculate_rtu_frame_size_loop
  (count : nat) (data : bytes) (size : Z) : result Z :=
  match count with
  | O => Ok (size + 2)
  | S count' =>
      if len data <? size + 2 then Ok (size + 2)
      else
        '(_, object_length) <- pystruct.unpack_BB (slice data size (size + 2)) ;;
        calculate_rtu_frame_size_loop count' data (size + (object_length + 2))
  end.

Definition calculate_rtu_frame_size (data : bytes) : result Z :=
  let size := 8 in
  if len data <=? 7 then Ok (size + 2)
  else
    count <- getitem data 7 ;;
    calculate_rtu_frame_size_loop (Z.to_nat count) data size.

Section Init.

Variable Basic : Z.
Variable Nothing : Z.

Definition __init__ (read_code : option Z) (information : option dict) : t :=
  let information := dict_or_empty information in
  {| sub_function_code := 0x0e;
     read_code := int_or read_code Basic;
     information := information;
     number_of_objects := len information;
     conformity := 0x83;
     next_object_id := 0x00;
     more_follows := Nothing |}.

End Init.

(** The [for (object_id, data) in self.information.items()] loop of
    [encode], appending to [packet]. *)
Fixpoint encode_loop (items : list (Z * bytes)) (packet : bytes)
  : result bytes :=
  match items with
  | [] => Ok packet
  | (object_id, data) :: rest =>
      header <- pystruct.pack [object_id; len data] ;;
      encode_loop rest ((packet ++ header) ++ data)
  end.

Definition encode (self : t) : result bytes :=
  packet <- pystruct.pack
    [sub_function_code self; read_code self; conformity self;
     more_follows self; next_object_id self; number_of_objects self] ;;
  encode_loop (information self) packet.

(** The [while count < len(data)] loop of [decode].  Every round moves
    [count] forward by at least 2, which bounds the number of rounds. *)
Equations? decode_loop (data : bytes) (information : dict) (count : Z)
  : result dict by wf (Z.to_nat (len data - count)) lt :=
  decode_loop data information count with Z_lt_dec count (len data) => {
    | right _ => Ok information
    | left _ with inspect (pystruct.unpack_BB (slice data count (count + 2))) => {
      | exist _ (Raise e) _ => Raise e
      | exist _ (Ok (object_id, object_length)) Hunpack =>
          let count' := count + (object_length + 2) in
          decode_loop data
            (setitem information object_id
               (slice data (count' - object_length) count'))
            count' } }.
Proof.
  assert (0 <= object_length).
  { destruct (slice data count (count + 2)) as [|x [|y [|z rest]]];
      simpl in Hunpack; try discriminate.
    injection Hunpack as _ <-. unfold Z_of_byte. lia. }
  lia.
Qed.

Definition decode (self : t) (data : bytes) : result t :=
  '(sub_function_code, read_code, conformity, more_follows,
    next_object_id, number_of_objects) <-
     pystruct.unpack_BBBBBB (slice data 0 6) ;;
  information <- decode_loop data [] 6 ;;
  Ok {| sub_function_code := sub_function_code;
        read_code := read_code;
        information := information;
        number_of_objects := number_of_objects;
        conformity := conformity;
        next_object_id := next_object_id;
        more_follows := more_follows |}.

Import Stdlib.Strings.String.

Definition __str__ (self : t) : string :=
  ("ReadDeviceInformationResponse(" ++ format_int (read_code self) ++ ")")%string.

End ReadDeviceInformationResponse.

(** ** ReadDeviceInformationRequest *)

(** Modelled from the spec: [pymodbus3.pdu] is not among the sources.  Of
    the exception kinds of [ModbusExceptions] the codec names only
    [IllegalValue]. *)
Inductive ModbusExceptions : Type :=
| IllegalValue.

Module ReadDeviceInformationRequest.

(** The attributes of an instance that this module reads and writes; those
    of the base class [ModbusRequest] are left out. *)
Record t : Type := mk {
  sub_function_code : Z;
  read_code : Z;
  object_id : Z
}.

Definition function_code : Z := 0x2b.
Definition _rtu_frame_size : Z := 3.

(** What [execute] hands back: the exception indicator of
    [self.do_exception(kind)], or the populated response. *)
Inductive outcome : Type :=
| exception_indicator (kind : ModbusExceptions)
| response (r : ReadDeviceInformationResponse.t).

(** Modelled from the spec: [do_exception] belongs to the PDU base class in
    [pymodbus3.pdu], which is not among the sources; it returns the
    exception indicator for the given kind and raises nothing. *)
Definition do_exception (self : t) (kind : ModbusExceptions) : outcome :=
  exception_indicator kind.

Definition encode (self : t) : result bytes :=
  packet <- pystruct.pack
    [sub_function_code self; read_code self; object_id self] ;;
  Ok packet.

Definition decode (self : t) (data : bytes) : result t :=
  '(sub_function_code, read_code, object_id) <- pystruct.unpack_BBB data ;;
  Ok {| sub_function_code := sub_function_code;
        read_code := read_code;
        object_id := object_id |}.

Section Execute.

(** [DeviceInformation.Basic] and [MoreData.Nothing] of
    [pymodbus3.constants]. *)
Variable Basic : Z.
Variable Nothing : Z.

(** [DeviceInformationFactory.get(_MCB, read_code, object_id)] of
    [pymodbus3.device]: the provider of the information mapping. *)
Variable get : Z -> Z -> dict.

Definition __init__ (read_code : option Z) (object_id : Z) : t :=
  {| sub_function_code := 0x0e;
     read_code := int_or read_code Basic;
     object_id := object_id |}.

Definition execute (self : t) : outcome :=
  if negb ((0x00 <=? object_id self) && (object_id self <=? 0xff)) then
    do_exception self IllegalValue
  else if negb ((0x00 <=? read_code self) && (read_code self <=? 0x04)) then
    do_exception self IllegalValue
  else
    let information := get (read_code self) (object_id self) in
    response
      (ReadDeviceInformationResponse.__init__ Basic Nothing
         (Some (read_code self)) (Some information)).

End Execute.

Import Stdlib.Strings.String.

Definition __str__ (self : t) : string :=
  ("ReadDeviceInformationRequest(" ++ format_int (read_code self)
   ++ "," ++ format_int (object_id self) ++ ")")%string.

End ReadDeviceInformationRequest.

Module Req := ReadDeviceInformationRequest.
Import ReadDeviceInformationResponse.

(** ** Valid records and complete frames *)

(** A valid request: the three attributes are single bytes. *)
Definition valid_request (q : Req.t) : Prop :=
  0 <= Req.sub_function_code q <= 255 /\
  0 <= Req.read_code q <= 255 /\
  0 <= Req.object_id q <= 255.

(** A valid response: the six header attributes are single bytes, and
    [information] is a dict (distinct keys) from byte ids to payloads of at
    most 255 bytes. *)
Definition valid_response (r : t) : Prop :=
  Forall (fun x => 0 <= x <= 255)
    [sub_function_code r; read_code r; conformity r;
     more_follows r; next_object_id r; number_of_objects r] /\
  NoDup (keys (information r)) /\
  Forall (fun item => 0 <= fst item <= 255 /\ len (snd item) <= 255)
    (information r).

(** What [encode] of a response needs: the six header attributes are
    single bytes, every id is a single byte and no payload is longer than
    255 bytes. *)
Definition encodable (r : t) : Prop :=
  Forall (fun x => 0 <= x <= 255)
    [sub_function_code r; read_code r; conformity r;
     more_follows r; next_object_id r; number_of_objects r] /\
  Forall (fun item => 0 <= fst item <= 255 /\ len (snd item) <= 255)
    (information r).

(** A complete RTU frame of a response: the unit address and the function
    code, the encoded response whose [number_of_objects] is the number of
    its entries, and the two bytes of the CRC. *)
Definition complete_frame (r : t) (b : bytes) : Prop :=
  number_of_objects r = len (information r) /\
  exists (address code : byte) (pdu crc : bytes),
    encode r = Ok pdu /\ len crc = 2 /\
    b = address :: code :: pdu ++ crc.

(** * Properties *)

(** ** Bytes, [struct] and slices *)

Lemma Z_of_byte_range (b : byte) : 0 <= Z_of_byte b <= 255.
Proof.
  unfold Z_of_byte. pose proof (Byte.to_N_bounded b). lia.
Qed.

Lemma pack_B_Ok (x : Z) (b : byte) :
  pystruct.pack_B x = Ok b -> Z_of_byte b = x /\ 0 <= x <= 255.
Proof.
  unfold pystruct.pack_B.
  destruct ((0 <=? x) && (x <=? 255)) eqn:Hrange; [|discriminate].
  apply andb_true_iff in Hrange as [H0 H255].
  apply Z.leb_le in H0, H255.
  destruct (Byte.of_N (Z.to_N x)) as [b'|] eqn:Hof; [|discriminate].
  intros [= <-]. apply Byte.to_of_N in Hof.
  unfold Z_of_byte. rewrite Hof. lia.
Qed.

Lemma pack_B_in_range (x : Z) :
  0 <= x <= 255 -> exists b, pystruct.pack_B x = Ok b /\ Z_of_byte b = x.
Proof.
  intros Hx. unfold pystruct.pack_B.
  replace ((0 <=? x) && (x <=? 255)) with true
    by (symmetry; apply andb_true_iff; split; apply Z.leb_le; lia).
  destruct (Byte.of_N (Z.to_N x)) as [b|] eqn:Hof.
  - exists b. split; [reflexivity|].
    apply Byte.to_of_N in Hof. unfold Z_of_byte. rewrite Hof. lia.
  - apply Byte.of_N_None_iff in Hof. lia.
Qed.

Lemma pack_B_out_of_range (x : Z) :
  255 < x -> pystruct.pack_B x = Raise struct_error.
Proof.
  intros Hx. unfold pystruct.pack_B.
  replace (x <=? 255) with false by (symmetry; apply Z.leb_gt; lia).
  rewrite andb_false_r. reflexivity.
Qed.

(** [struct.pack] raises nothing but [struct.error]. *)
Lemma pack_Raise (args : list Z) (e : exn) :
  pystruct.pack args = Raise e -> e = struct_error.
Proof.
  induction args as [|x rest IH]; simpl; [discriminate|].
  unfold pystruct.pack_B.
  destruct ((0 <=? x) && (x <=? 255)); simpl.
  - destruct (Byte.of_N (Z.to_N x)); simpl.
    + destruct (pystruct.pack rest); simpl; [discriminate|].
      intros [= <-]. apply IH. reflexivity.
    + intros [= <-]. reflexivity.
  - intros [= <-]. reflexivity.
Qed.

(** A successful [struct.pack] writes its arguments, one byte each. *)
Lemma pack_Ok (args : list Z) (bs : bytes) :
  pystruct.pack args = Ok bs -> map Z_of_byte bs = args.
Proof.
  revert bs. induction args as [|x rest IH]; simpl; intros bs.
  - intros [= <-]. reflexivity.
  - destruct (pystruct.pack_B x) as [b|] eqn:Hb; simpl; [|discriminate].
    destruct (pystruct.pack rest) as [bs'|]; simpl; [|discriminate].
    intros [= <-]. simpl. apply pack_B_Ok in Hb as [-> _].
    f_equal. apply IH. reflexivity.
Qed.

Lemma len_app {A : Type} (l1 l2 : list A) : len (l1 ++ l2) = len l1 + len l2.
Proof. unfold len. rewrite length_app. lia. Qed.

Lemma len_nonneg {A : Type} (l : list A) : 0 <= len l.
Proof. unfold len. lia. Qed.

Lemma len_cons {A : Type} (x : A) (l : list A) : len (x :: l) = 1 + len l.
Proof. unfold len. simpl length. lia. Qed.

(** A slice with bounds inside the buffer, in the order [lo <= hi]. *)
Lemma slice_inside {A : Type} (data : list A) (lo hi : Z) :
  0 <= lo <= hi -> hi <= len data ->
  slice data lo hi = firstn (Z.to_nat (hi - lo)) (skipn (Z.to_nat lo) data).
Proof.
  intros Hlo Hhi. unfold slice, slice_index.
  destruct (Z.ltb_spec lo 0); [lia|].
  destruct (Z.ltb_spec hi 0); [lia|].
  rewrite !Z.min_l by lia. reflexivity.
Qed.

(** A slice whose upper bound lies at or beyond the end stops at the end. *)
Lemma slice_to_end {A : Type} (data : list A) (lo hi : Z) :
  0 <= lo <= len data -> len data <= hi ->
  slice data lo hi = skipn (Z.to_nat lo) data.
Proof.
  intros Hlo Hhi. unfold slice, slice_index.
  destruct (Z.ltb_spec lo 0); [lia|].
  destruct (Z.ltb_spec hi 0); [pose proof (len_nonneg data); lia|].
  rewrite (Z.min_l lo) by lia. rewrite (Z.min_r hi) by lia.
  apply firstn_all2. rewrite length_skipn. unfold len in *. lia.
Qed.

(** The middle part of a concatenation, addressed by its offsets. *)
Lemma slice_app_mid {A : Type} (pre mid post : list A) :
  slice (pre ++ mid ++ post) (len pre) (len pre + len mid) = mid.
Proof.
  rewrite slice_inside.
  - replace (Z.to_nat (len pre + len mid - len pre)) with (length mid)
      by (unfold len; lia).
    replace (Z.to_nat (len pre)) with (length pre) by (unfold len; lia).
    rewrite skipn_app, skipn_all, Nat.sub_diag. simpl.
    rewrite firstn_app, firstn_all, Nat.sub_diag. simpl.
    apply app_nil_r.
  - pose proof (len_nonneg pre). pose proof (len_nonneg mid). lia.
  - rewrite !len_app. pose proof (len_nonneg post). lia.
Qed.

(** The tail of a concatenation, when the slice reaches the end. *)
Lemma slice_app_tail {A : Type} (pre post : list A) (hi : Z) :
  len pre + len post <= hi ->
  slice (pre ++ post) (len pre) hi = post.
Proof.
  intros Hhi. rewrite slice_to_end.
  - replace (Z.to_nat (len pre)) with (length pre) by (unfold len; lia).
    rewrite skipn_app, skipn_all, Nat.sub_diag. reflexivity.
  - rewrite len_app. pose proof (len_nonneg pre).
    pose proof (len_nonneg post). lia.
  - rewrite len_app. lia.
Qed.

(** ** The loops, one round at a time *)

Lemma decode_loop_unfold (data : bytes) (information : dict) (count : Z) :
  decode_loop data information count =
  if count <? len data then
    '(object_id, object_length) <-
       pystruct.unpack_BB (slice data count (count + 2)) ;;
    let count' := count + (object_length + 2) in
    decode_loop data
      (setitem information object_id
         (slice data (count' - object_length) count'))
      count'
  else Ok information.
Proof.
  simp decode_loop.
  destruct (Z_lt_dec count (len data)) as [Hlt|Hge]; simpl.
  - replace (count <? len data) with true by (symmetry; apply Z.ltb_lt; lia).
    unfold inspect.
    destruct (pystruct.unpack_BB (slice data count (count + 2)))
      as [[object_id object_length]|e]; reflexivity.
  - replace (count <? len data) with false by (symmetry; apply Z.ltb_ge; lia).
    reflexivity.
Qed.


(** Two bytes are there to unpack wherever the buffer reaches [lo + 2]. *)
Lemma slice_two (data : bytes) (lo : Z) :
  0 <= lo -> lo + 2 <= len data ->
  exists x y, slice data lo (lo + 2) = [x; y].
Proof.
  intros Hlo Hhi. rewrite slice_inside by lia.
  replace (Z.to_nat (lo + 2 - lo)) with 2%nat by lia.
  assert (Hlen : (2 <= length (skipn (Z.to_nat lo) data))%nat)
    by (rewrite length_skipn; unfold len in Hhi; lia).
  destruct (skipn (Z.to_nat lo) data) as [|x [|y rest]];
    simpl in Hlen; try lia.
  exists x, y. reflexivity.
Qed.

(** A slice that ends inside a prefix does not see what follows it. *)
Lemma slice_app_l {A : Type} (p ext : list A) (lo hi : Z) :
  0 <= lo <= hi -> hi <= len p ->
  slice (p ++ ext) lo hi = slice p lo hi.
Proof.
  intros Hlo Hhi.
  rewrite !slice_inside; try lia.
  2:{ rewrite len_app. pose proof (len_nonneg ext). lia. }
  rewrite skipn_app, firstn_app.
  replace (Z.to_nat (hi - lo) - length (skipn (Z.to_nat lo) p))%nat with 0%nat
    by (rewrite length_skipn; unfold len in Hhi; lia).
  simpl. apply app_nil_r.
Qed.

(** ** The frame-size calculation never raises *)

Lemma calculate_rtu_frame_size_loop_Ok (count : nat) (data : bytes) (size : Z) :
  0 <= size ->
  exists n, calculate_rtu_frame_size_loop count data size = Ok n /\ size + 2 <= n.
Proof.
  revert size. induction count as [|count IH]; intros size Hsize; simpl.
  - exists (size + 2). split; [reflexivity | lia].
  - destruct (Z.ltb_spec (len data) (size + 2)) as [Hshort|Hlong].
    + exists (size + 2). split; [reflexivity | lia].
    + destruct (slice_two data size Hsize Hlong) as (x & y & ->). simpl.
      pose proof (Z_of_byte_range y) as Hy.
      destruct (IH (size + (Z_of_byte y + 2))) as (n & Hn & Hle); [lia|].
      exists n. split; [exact Hn | lia].
Qed.

Lemma getitem_Ok (data : bytes) (i : Z) :
  0 <= i < len data -> exists b, nth_error data (Z.to_nat i) = Some b /\
                                 getitem data i = Ok (Z_of_byte b).
Proof.
  intros Hi. unfold getitem.
  destruct (Z.ltb_spec i 0); [lia|].
  replace ((0 <=? i) && (i <? len data)) with true
    by (symmetry; apply andb_true_iff; split;
        [apply Z.leb_le | apply Z.ltb_lt]; lia).
  destruct (nth_error data (Z.to_nat i)) as [b|] eqn:Hnth.
  - exists b. split; reflexivity.
  - apply nth_error_None in Hnth. unfold len in Hi. lia.
Qed.

(** [calculate_rtu_frame_size] returns a number on every buffer. *)
Lemma calculate_rtu_frame_size_Ok (data : bytes) :
  exists n, calculate_rtu_frame_size data = Ok n.
Proof.
  unfold calculate_rtu_frame_size.
  destruct (Z.leb_spec (len data) 7) as [Hshort|Hlong].
  - exists 10. reflexivity.
  - destruct (getitem_Ok data 7) as (b & _ & ->); [lia|]. simpl.
    destruct (calculate_rtu_frame_size_loop_Ok
                (Z.to_nat (Z_of_byte b)) data 8) as (n & Hn & _); [lia|].
    exists n. exact Hn.
Qed.

(** C6. [calculate_rtu_frame_size] is total: on every buffer it returns a
    number and raises nothing, and on a buffer of fewer than 8 bytes the
    number is 10. *)
Theorem calculate_rtu_frame_size_total (data : bytes) :
  (exists n, calculate_rtu_frame_size data = Ok n) /\
  (len data < 8 -> calculate_rtu_frame_size data = Ok 10).
Proof.
  split.
  - apply calculate_rtu_frame_size_Ok.
  - intros Hshort. unfold calculate_rtu_frame_size.
    destruct (Z.leb_spec (len data) 7); [reflexivity | lia].
Qed.

Lemma calculate_rtu_frame_size_total_witness :
  len [x01; x2b; x0e; x01; x83] < 8 /\
  calculate_rtu_frame_size [x01; x2b; x0e; x01; x83] = Ok 10.
Proof.
  split; [reflexivity|].
  apply (proj2 (calculate_rtu_frame_size_total [x01; x2b; x0e; x01; x83])).
  reflexivity.
Defined.

(** ** Short buffers *)

(** C8. [decode] of a request raises [struct.error] on every buffer of
    fewer than 3 bytes, and [decode] of a response raises it on every
    buffer of fewer than 6 bytes. *)
Theorem decode_short_buffer_raises (q : Req.t) (r : t) (data : bytes) :
  (len data < 3 -> Req.decode q data = Raise struct_error) /\
  (len data < 6 -> decode r data = Raise struct_error).
Proof.
  split; intros Hshort.
  - unfold Req.decode.
    destruct data as [|a [|b [|c rest]]]; try reflexivity.
    rewrite !len_cons in Hshort. pose proof (len_nonneg rest). lia.
  - unfold decode.
    rewrite slice_to_end by (pose proof (len_nonneg data); lia).
    simpl skipn.
    destruct data as [|a [|b [|c [|d [|e [|f rest]]]]]]; try reflexivity.
    rewrite !len_cons in Hshort. pose proof (len_nonneg rest). lia.
Qed.

Lemma decode_short_buffer_raises_witness :
  Req.decode (Req.mk 0x0e 1 0) [x0e; x01] = Raise struct_error /\
  decode (mk 0x0e 1 [] 0 0x83 0 0) [x0e; x01; x83; x00; x00]
    = Raise struct_error.
Proof.
  split.
  - apply (proj1 (decode_short_buffer_raises
                    (Req.mk 0x0e 1 0) (mk 0x0e 1 [] 0 0x83 0 0) [x0e; x01])).
    reflexivity.
  - apply (proj2 (decode_short_buffer_raises
                    (Req.mk 0x0e 1 0) (mk 0x0e 1 [] 0 0x83 0 0)
                    [x0e; x01; x83; x00; x00])).
    reflexivity.
Defined.

(** ** Validation in [execute] *)

Section Execute.

Variable Basic : Z.
Variable Nothing : Z.
Variable get : Z -> Z -> dict.

Lemma execute_in_range (self : Req.t) :
  0 <= Req.object_id self <= 255 -> 0 <= Req.read_code self <= 4 ->
  Req.execute Basic Nothing get self =
  Req.response
    (__init__ Basic Nothing (Some (Req.read_code self))
       (Some (get (Req.read_code self) (Req.object_id self)))).
Proof.
  intros Hoid Hrc. unfold Req.execute.
  replace ((0 <=? Req.object_id self) && (Req.object_id self <=? 255))
    with true by (symmetry; apply andb_true_iff; split; apply Z.leb_le; lia).
  replace ((0 <=? Req.read_code self) && (Req.read_code self <=? 4))
    with true by (symmetry; apply andb_true_iff; split; apply Z.leb_le; lia).
  reflexivity.
Qed.

Lemma execute_object_id_out_of_range (self : Req.t) :
  ~ 0 <= Req.object_id self <= 255 ->
  Req.execute Basic Nothing get self = Req.exception_indicator IllegalValue.
Proof.
  intros Hoid. unfold Req.execute.
  replace ((0 <=? Req.object_id self) && (Req.object_id self <=? 255))
    with false; [reflexivity|].
  symmetry. apply andb_false_iff.
  destruct (Z.leb_spec 0 (Req.object_id self)); [right | left; reflexivity].
  apply Z.leb_gt. lia.
Qed.

Lemma execute_read_code_out_of_range (self : Req.t) :
  ~ 0 <= Req.read_code self <= 4 ->
  Req.execute Basic Nothing get self = Req.exception_indicator IllegalValue.
Proof.
  intros Hrc. unfold Req.execute.
  destruct (negb _); [reflexivity|].
  replace ((0 <=? Req.read_code self) && (Req.read_code self <=? 4))
    with false; [reflexivity|].
  symmetry. apply andb_false_iff.
  destruct (Z.leb_spec 0 (Req.read_code self)); [right | left; reflexivity].
  apply Z.leb_gt. lia.
Qed.

(** C3. [execute] returns the [IllegalValue] exception indicator exactly
    when [object_id] lies outside [0x00..0xFF] or [read_code] outside
    [0x00..0x04].  The [object_id] check comes first: once it fails the
    indicator is returned whatever [read_code] holds.  At the upper edges
    [read_code = 0x04], [object_id = 0xFF] the outcome is the response
    built from the provider's mapping, and [read_code = 0x05] gives
    [IllegalValue]. *)
Theorem execute_IllegalValue_iff (self : Req.t) :
  (Req.execute Basic Nothing get self = Req.exception_indicator IllegalValue <->
   ~ 0x00 <= Req.object_id self <= 0xff \/
   ~ 0x00 <= Req.read_code self <= 0x04) /\
  (~ 0x00 <= Req.object_id self <= 0xff ->
   forall read_code : Z,
     Req.execute Basic Nothing get
       (Req.mk (Req.sub_function_code self) read_code (Req.object_id self))
     = Req.exception_indicator IllegalValue) /\
  (Req.read_code self = 0x04 -> Req.object_id self = 0xff ->
   Req.execute Basic Nothing get self =
   Req.response (__init__ Basic Nothing (Some 0x04) (Some (get 0x04 0xff)))) /\
  (Req.read_code self = 0x05 ->
   Req.execute Basic Nothing get self = Req.exception_indicator IllegalValue).
Proof.
  repeat split.
  - intros Hexc.
    destruct (Z_le_dec 0 (Req.object_id self));
      [destruct (Z_le_dec (Req.object_id self) 255)|]; try (left; lia).
    destruct (Z_le_dec 0 (Req.read_code self));
      [destruct (Z_le_dec (Req.read_code self) 4)|]; try (right; lia).
    rewrite execute_in_range in Hexc by lia. discriminate.
  - intros [Hoid|Hrc].
    + apply execute_object_id_out_of_range. exact Hoid.
    + apply execute_read_code_out_of_range. exact Hrc.
  - intros Hoid read_code. apply execute_object_id_out_of_range. exact Hoid.
  - intros Hrc Hoid. rewrite execute_in_range by lia.
    rewrite Hrc, Hoid. reflexivity.
  - intros Hrc. apply execute_read_code_out_of_range. lia.
Qed.

End Execute.

Lemma execute_IllegalValue_iff_witness :
  Req.execute 0 0 (fun _ _ => [(0, [x41])]) (Req.mk 0x0e 0x05 0x100)
  = Req.exception_indicator IllegalValue /\
  Req.execute 0 0 (fun _ _ => [(0, [x41])]) (Req.mk 0x0e 0x04 0xff)
  = Req.response (mk 0x0e 4 [(0, [x41])] 1 0x83 0 0) /\
  Req.execute 0 0 (fun _ _ => [(0, [x41])]) (Req.mk 0x0e 0x05 0xff)
  = Req.exception_indicator IllegalValue.
Proof.
  split; [|split].
  - apply (proj1 (proj2 (execute_IllegalValue_iff 0 0 (fun _ _ => [(0, [x41])])
                           (Req.mk 0x0e 0x00 0x100)))).
    simpl. lia.
  - apply (proj1 (proj2 (proj2 (execute_IllegalValue_iff 0 0
                                  (fun _ _ => [(0, [x41])])
                                  (Req.mk 0x0e 0x04 0xff)))));
      reflexivity.
  - apply (proj2 (proj2 (proj2 (execute_IllegalValue_iff 0 0
                                  (fun _ _ => [(0, [x41])])
                                  (Req.mk 0x0e 0x05 0xff))))).
    reflexivity.
Defined.

(** ** Constructors *)

(** C9. Every response that comes out of the constructor, the one a
    successful [execute] returns included, has [conformity = 0x83],
    [more_follows = MoreData.Nothing] (0 in the data model) and
    [next_object_id = 0x00], whatever [read_code] and [information] are. *)
Theorem constructed_response_fixed_fields (Basic Nothing : Z) :
  (forall (read_code : option Z) (information : option dict),
     let r := __init__ Basic Nothing read_code information in
     conformity r = 0x83 /\ more_follows r = Nothing /\
     next_object_id r = 0x00) /\
  (forall (read_code : option Z) (information : option dict),
     more_follows (__init__ Basic MoreData.Nothing read_code information) = 0) /\
  (forall (get : Z -> Z -> dict) (q : Req.t) (r : t),
     Req.execute Basic Nothing get q = Req.response r ->
     conformity r = 0x83 /\ more_follows r = Nothing /\
     next_object_id r = 0x00).
Proof.
  split; [|split].
  - intros read_code information. simpl. auto.
  - reflexivity.
  - intros get q r Hexec. unfold Req.execute in Hexec.
    destruct (negb _); [discriminate|].
    destruct (negb _); [discriminate|].
    injection Hexec as <-. simpl. auto.
Qed.

Lemma constructed_response_fixed_fields_witness :
  let r := mk 0x0e 2 [(0, [x41])] 1 0x83 0 0 in
  conformity r = 0x83 /\ more_follows r = 0 /\ next_object_id r = 0x00.
Proof.
  apply (proj2 (proj2 (constructed_response_fixed_fields 0 0))
           (fun _ _ => [(0, [x41])]) (Req.mk 0x0e 2 0)).
  reflexivity.
Defined.

(** C10. Both constructors store [DeviceInformation.Basic] when
    [read_code] is omitted, [None] or [0], so the [read_code] of a record
    fresh from a constructor is [DeviceInformation.Basic] or is not 0: it
    is never 0 while differing from [DeviceInformation.Basic].  [decode]
    assigns the field from the buffer and does produce a [read_code] of 0. *)
Theorem init_falsy_read_code_is_Basic (Basic : Z) :
  (forall object_id : Z,
     Req.read_code (Req.__init__ Basic None object_id) = Basic /\
     Req.read_code (Req.__init__ Basic (Some 0) object_id) = Basic) /\
  (forall (Nothing : Z) (information : option dict),
     read_code (__init__ Basic Nothing None information) = Basic /\
     read_code (__init__ Basic Nothing (Some 0) information) = Basic) /\
  (forall (rc : option Z) (object_id : Z),
     ~ (Req.read_code (Req.__init__ Basic rc object_id) = 0 /\
        Req.read_code (Req.__init__ Basic rc object_id) <> Basic)) /\
  (forall (Nothing : Z) (rc : option Z) (information : option dict),
     ~ (read_code (__init__ Basic Nothing rc information) = 0 /\
        read_code (__init__ Basic Nothing rc information) <> Basic)) /\
  (forall (self : Req.t) (object_id : byte),
     exists q, Req.decode self [x0e; x00; object_id] = Ok q /\
               Req.read_code q = 0) /\
  (forall self : t,
     exists r, decode self [x0e; x00; x83; x00; x00; x00] = Ok r /\
               read_code r = 0).
Proof.
  assert (Hor : forall rc : option Z,
             ~ (int_or rc Basic = 0 /\ int_or rc Basic <> Basic)).
  { intros [v|]; simpl; [|tauto].
    destruct (Z.eqb_spec v 0); tauto. }
  split; [|split; [|split; [|split; [|split]]]].
  - intros object_id. split; reflexivity.
  - intros Nothing information. split; reflexivity.
  - intros rc object_id. apply Hor.
  - intros Nothing rc information. apply Hor.
  - intros self object_id. eexists. split; reflexivity.
  - intros self. eexists. split; reflexivity.
Qed.

(** ** Encoding a response *)

(** The object loop appends to the packet it is given. *)
Lemma encode_loop_prefix (items : list (Z * bytes)) (packet : bytes) :
  encode_loop items packet =
  (body <- encode_loop items [] ;; Ok (packet ++ body)).
Proof.
  revert packet. induction items as [|[object_id data] rest IH];
    intros packet; cbn [encode_loop bind].
  - rewrite app_nil_r. reflexivity.
  - destruct (pystruct.pack [object_id; len data]) as [header|e];
      cbn [bind app]; [|reflexivity].
    rewrite (IH ((packet ++ header) ++ data)), (IH (header ++ data)).
    destruct (encode_loop rest []) as [body|e]; simpl; [|reflexivity].
    rewrite !app_assoc. reflexivity.
Qed.

Lemma encode_loop_app (items : list (Z * bytes)) (packet frame : bytes) :
  encode_loop items packet = Ok frame ->
  exists body, encode_loop items [] = Ok body /\ frame = packet ++ body.
Proof.
  rewrite encode_loop_prefix.
  destruct (encode_loop items []) as [body|e]; simpl; [|discriminate].
  intros [= <-]. exists body. split; reflexivity.
Qed.

(** The object loop raises nothing but [struct.error]. *)
Lemma encode_loop_Raise (items : list (Z * bytes)) (packet : bytes) (e : exn) :
  encode_loop items packet = Raise e -> e = struct_error.
Proof.
  revert packet. induction items as [|[object_id data] rest IH];
    intros packet; cbn [encode_loop]; [discriminate|].
  destruct (pystruct.pack [object_id; len data]) as [header|e'] eqn:Hpack;
    cbn [bind].
  - apply IH.
  - intros [= <-]. exact (pack_Raise _ _ Hpack).
Qed.

Lemma encode_Raise (self : t) (e : exn) :
  encode self = Raise e -> e = struct_error.
Proof.
  unfold encode.
  destruct (pystruct.pack _) as [packet|e'] eqn:Hpack; simpl.
  - apply encode_loop_Raise.
  - intros [= <-]. exact (pack_Raise _ _ Hpack).
Qed.

(** The header of an encoded response: six bytes holding the six header
    attributes as they are stored. *)
Lemma encode_header (self : t) (frame : bytes) :
  encode self = Ok frame ->
  exists packet body,
    frame = packet ++ body /\
    encode_loop (information self) [] = Ok body /\
    map Z_of_byte packet =
      [sub_function_code self; read_code self; conformity self;
       more_follows self; next_object_id self; number_of_objects self].
Proof.
  unfold encode.
  destruct (pystruct.pack _) as [packet|e] eqn:Hpack; simpl; [|discriminate].
  intros Hloop. apply encode_loop_app in Hloop as (body & Hbody & ->).
  exists packet, body. repeat split; [exact Hbody|].
  apply pack_Ok. exact Hpack.
Qed.

(** C1, as amended. [encode] writes the stored [number_of_objects]
    attribute as the sixth header byte and does not count the entries of
    [information]; the byte is the number of entries for a response fresh
    from the constructor, which stores [len(information)] there. *)
Theorem encode_writes_stored_number_of_objects (self : t) (frame : bytes) :
  encode self = Ok frame ->
  option_map Z_of_byte (nth_error frame 5) = Some (number_of_objects self) /\
  (forall (Basic Nothing : Z) (rc : option Z) (info : option dict),
     self = __init__ Basic Nothing rc info ->
     option_map Z_of_byte (nth_error frame 5) = Some (len (information self))).
Proof.
  intros Hencode.
  assert (Hbyte : option_map Z_of_byte (nth_error frame 5)
                  = Some (number_of_objects self)).
  { apply encode_header in Hencode as (packet & body & -> & _ & Hpacket).
    destruct packet as [|a [|b [|c [|d [|e [|f [|g rest]]]]]]];
      try discriminate.
    injection Hpacket as _ _ _ _ _ <-. reflexivity. }
  split; [exact Hbyte|].
  intros Basic Nothing rc info ->. rewrite Hbyte. reflexivity.
Qed.

Lemma encode_writes_stored_number_of_objects_witness :
  option_map Z_of_byte
    (nth_error [x0e; x01; x83; x00; x00; x05; x00; x01; x41] 5) = Some 5 /\
  option_map Z_of_byte
    (nth_error [x0e; x01; x83; x00; x00; x02; x00; x01; x41; x01; x00] 5)
  = Some (len [(0, [x41]); (1, [])]).
Proof.
  split.
  - apply (proj1 (encode_writes_stored_number_of_objects
                    (mk 0x0e 1 [(0, [x41])] 5 0x83 0 0)
                    [x0e; x01; x83; x00; x00; x05; x00; x01; x41]
                    eq_refl)).
  - apply (proj2 (encode_writes_stored_number_of_objects
                    (__init__ 0 0 (Some 1) (Some [(0, [x41]); (1, [])]))
                    [x0e; x01; x83; x00; x00; x02; x00; x01; x41; x01; x00]
                    eq_refl)
             0 0 (Some 1) (Some [(0, [x41]); (1, [])]) eq_refl).
Defined.

(** C1 fails as stated: a response with three entries whose
    [number_of_objects] was set to 5 encodes with 5, not 3, in the sixth
    header byte. *)
Lemma encode_number_of_objects_counterexample :
  let fresh :=
    __init__ DeviceInformation.Basic MoreData.Nothing (Some 1)
      (Some [(0, [x41]); (1, [x42]); (2, [x43])]) in
  let self :=
    mk (sub_function_code fresh) (read_code fresh) (information fresh) 5
       (conformity fresh) (next_object_id fresh) (more_follows fresh) in
  let frame :=
    [x0e; x01; x83; x00; x00; x05;
     x00; x01; x41; x01; x01; x42; x02; x01; x43] in
  number_of_objects fresh = 3 /\
  len (information self) = 3 /\
  encode self = Ok frame /\
  option_map Z_of_byte (nth_error frame 5) = Some 5 /\
  option_map Z_of_byte (nth_error frame 5) <> Some (len (information self)).
Proof.
  repeat split. discriminate.
Qed.

(** C7. [encode] raises ([struct.error]) and returns no frame whenever
    some entry of [information] holds more than 255 bytes. *)
Theorem encode_payload_too_large_raises
  (self : t) (object_id : Z) (data : bytes) :
  In (object_id, data) (information self) -> 255 < len data ->
  encode self = Raise struct_error /\
  (forall frame, encode self <> Ok frame).
Proof.
  intros Hin Hlarge.
  assert (Hloop : forall packet frame,
             encode_loop (information self) packet <> Ok frame).
  { induction (information self) as [|[k v] rest IH]; [contradiction|].
    intros packet frame. cbn [encode_loop].
    destruct Hin as [[= -> ->]|Hin].
    - cbn [pystruct.pack].
      rewrite (pack_B_out_of_range (len data) Hlarge).
      destruct (pystruct.pack_B object_id); discriminate.
    - destruct (pystruct.pack [k; len v]); cbn [bind]; [|discriminate].
      apply IH. exact Hin. }
  assert (Hno : forall frame, encode self <> Ok frame).
  { intros frame. unfold encode.
    destruct (pystruct.pack _) as [packet|e]; simpl; [|discriminate].
    apply Hloop. }
  split; [|exact Hno].
  destruct (encode self) as [frame|e] eqn:Hencode.
  - destruct (Hno frame). reflexivity.
  - f_equal. exact (encode_Raise _ _ Hencode).
Qed.

Lemma encode_payload_too_large_raises_witness :
  encode (mk 0x0e 1 [(0, [x41]); (1, repeat x42 256)] 2 0x83 0 0)
  = Raise struct_error.
Proof.
  apply (proj1 (encode_payload_too_large_raises
                  (mk 0x0e 1 [(0, [x41]); (1, repeat x42 256)] 2 0x83 0 0)
                  1 (repeat x42 256)
                  (or_intror (or_introl eq_refl)) eq_refl)).
Defined.

(** ** Decoding what was encoded *)

(** One encoded object: its two header bytes and what they hold. *)
Lemma pack_object_header (object_id : Z) (data header : bytes) :
  pystruct.pack [object_id; len data] = Ok header ->
  len header = 2 /\ pystruct.unpack_BB header = Ok (object_id, len data).
Proof.
  intros Hpack. apply pack_Ok in Hpack.
  destruct header as [|a [|b [|c rest]]]; try discriminate.
  injection Hpack as <- <-. split; reflexivity.
Qed.

(** [decode]'s loop, started where the encoded objects begin, walks over
    them one by one, assigns each to the dict and arrives at their end,
    whatever bytes follow. *)
Lemma decode_loop_encoded (items : list (Z * bytes)) :
  forall (packet frame rest : bytes) (information : dict),
    encode_loop items packet = Ok frame ->
    decode_loop (frame ++ rest) information (len packet) =
    decode_loop (frame ++ rest) (setitems information items) (len frame).
Proof.
  induction items as [|[object_id data] items IH];
    intros packet frame rest information; cbn [encode_loop].
  - intros [= <-]. reflexivity.
  - destruct (pystruct.pack [object_id; len data]) as [header|e] eqn:Hpack;
      cbn [bind]; [|discriminate].
    intros Hloop.
    destruct (pack_object_header _ _ _ Hpack) as [Hlen Hunpack].
    change (setitems information ((object_id, data) :: items))
      with (setitems (setitem information object_id data) items).
    rewrite <- (IH _ _ rest (setitem information object_id data) Hloop).
    apply encode_loop_app in Hloop as (body & _ & ->).
    rewrite decode_loop_unfold.
    pose proof (len_nonneg packet). pose proof (len_nonneg data).
    pose proof (len_nonneg body). pose proof (len_nonneg rest).
    replace (len packet <? len ((((packet ++ header) ++ data) ++ body) ++ rest))
      with true by (symmetry; apply Z.ltb_lt; rewrite !len_app; lia).
    replace ((((packet ++ header) ++ data) ++ body) ++ rest)
      with (packet ++ header ++ (data ++ body ++ rest))
      by (rewrite !app_assoc; reflexivity).
    rewrite <- Hlen at 1. rewrite slice_app_mid, Hunpack. cbn [bind].
    cbv zeta.
    replace (len packet + (len data + 2) - len data)
      with (len (packet ++ header)) by (rewrite len_app; lia).
    replace (len packet + (len data + 2))
      with (len (packet ++ header) + len data) by (rewrite len_app; lia).
    replace (packet ++ header ++ data ++ body ++ rest)
      with ((packet ++ header) ++ data ++ (body ++ rest))
      by (rewrite !app_assoc; reflexivity).
    rewrite slice_app_mid. rewrite <- len_app. reflexivity.
Qed.

(** The loop has nothing left to read at the end of the buffer. *)
Lemma decode_loop_at_end (data : bytes) (information : dict) (count : Z) :
  len data <= count -> decode_loop data information count = Ok information.
Proof.
  intros Hend. rewrite decode_loop_unfold.
  destruct (Z.ltb_spec count (len data)); [lia | reflexivity].
Qed.

Lemma setitem_fresh (d : dict) (k : Z) (v : bytes) :
  ~ In k (keys d) -> setitem d k v = d ++ [(k, v)].
Proof.
  induction d as [|[k' v'] d IH]; simpl; intros Hfresh; [reflexivity|].
  destruct (Z.eqb_spec k' k) as [->|_]; [tauto|].
  rewrite IH by tauto. reflexivity.
Qed.

(** Assigning the items of a dict to a dict that has none of their keys
    appends them in order. *)
Lemma setitems_fresh (items : list (Z * bytes)) (d : dict) :
  NoDup (keys (d ++ items)) -> setitems d items = d ++ items.
Proof.
  revert d. induction items as [|[k v] items IH]; intros d Hnodup.
  - simpl. rewrite app_nil_r. reflexivity.
  - unfold setitems. cbn [fold_left fst snd]. fold (setitems (setitem d k v) items).
    assert (Hfresh : ~ In k (keys d)).
    { unfold keys in *. rewrite map_app in Hnodup. simpl in Hnodup.
      apply NoDup_remove_2 in Hnodup. intros Hin. apply Hnodup.
      apply in_or_app. left. exact Hin. }
    rewrite (setitem_fresh d k v Hfresh).
    replace (d ++ (k, v) :: items) with ((d ++ [(k, v)]) ++ items)
      by (rewrite <- app_assoc; reflexivity).
    apply IH. rewrite <- app_assoc. exact Hnodup.
Qed.

(** A dict whose ids and payload lengths fit a byte encodes. *)
Lemma encode_loop_Ok (items : list (Z * bytes)) (packet : bytes) :
  Forall (fun item => 0 <= fst item <= 255 /\ len (snd item) <= 255) items ->
  exists frame, encode_loop items packet = Ok frame.
Proof.
  intros Hvalid. revert packet.
  induction Hvalid as [|[object_id data] items [Hid Hlen] _ IH];
    intros packet; cbn [encode_loop].
  - exists packet. reflexivity.
  - simpl in Hid, Hlen. cbn [pystruct.pack].
    destruct (pack_B_in_range object_id Hid) as (a & -> & _).
    destruct (pack_B_in_range (len data)) as (b & -> & _);
      [pose proof (len_nonneg data); lia|].
    cbn [bind]. apply IH.
Qed.

Lemma pack_in_range (args : list Z) :
  Forall (fun x => 0 <= x <= 255) args ->
  exists bs, pystruct.pack args = Ok bs.
Proof.
  induction 1 as [|x args Hx _ (bs & IH)]; simpl.
  - exists []. reflexivity.
  - destruct (pack_B_in_range x Hx) as (b & -> & _). rewrite IH.
    exists (b :: bs). reflexivity.
Qed.

(** Decoding a buffer that starts with an encoded response: the header
    attributes are those of the response, and the loop goes on, from the
    end of the encoded objects, with the dict of their assignments. *)
Lemma decode_encode_app (self r : t) (frame rest : bytes) :
  encode r = Ok frame ->
  decode self (frame ++ rest) =
  (information <-
     decode_loop (frame ++ rest) (setitems [] (information r)) (len frame) ;;
   Ok (mk (sub_function_code r) (read_code r) information
         (number_of_objects r) (conformity r) (next_object_id r)
         (more_follows r))).
Proof.
  intros Hencode. unfold decode.
  pose proof Hencode as Hheader.
  apply encode_header in Hheader as (packet & body & -> & Hbody & Hpacket).
  destruct packet as [|a [|b [|c [|d [|e [|f [|g tail]]]]]]];
    try discriminate.
  injection Hpacket as Ha Hb Hc Hd He Hf.
  change 6 with (len (@nil byte) + len [a; b; c; d; e; f]) at 1.
  change 0 with (len (@nil byte)) at 1.
  replace (([a; b; c; d; e; f] ++ body) ++ rest)
    with ([] ++ [a; b; c; d; e; f] ++ (body ++ rest)) at 1
    by (rewrite <- app_assoc; reflexivity).
  rewrite slice_app_mid. cbn [pystruct.unpack_BBBBBB bind].
  unfold encode in Hencode.
  destruct (pystruct.pack _) as [packet|] eqn:Hpack; [|discriminate].
  cbn [bind] in Hencode.
  assert (Hlen : len packet = 6).
  { apply pack_Ok in Hpack. apply (f_equal (@length Z)) in Hpack.
    rewrite length_map in Hpack. unfold len. rewrite Hpack. reflexivity. }
  pose proof (decode_loop_encoded _ _ _ rest [] Hencode) as Hloop.
  rewrite Hlen in Hloop. rewrite Hloop.
  rewrite Ha, Hb, Hc, Hd, He, Hf. reflexivity.
Qed.

Lemma decode_encode (self r : t) (frame : bytes) :
  encode r = Ok frame ->
  decode self frame =
  Ok (mk (sub_function_code r) (read_code r) (setitems [] (information r))
        (number_of_objects r) (conformity r) (next_object_id r)
        (more_follows r)).
Proof.
  intros Hencode.
  pose proof (decode_encode_app self r frame [] Hencode) as Hdecode.
  rewrite app_nil_r in Hdecode. rewrite Hdecode.
  rewrite decode_loop_at_end by lia. reflexivity.
Qed.

(** C4. Round trip of both codecs: a valid request encodes, and decoding
    the bytes gives the request back; a valid response encodes, and
    decoding the bytes gives back its header attributes and its
    [information] with the same items in the same order. *)
Theorem decode_encode_round_trip :
  (forall self q : Req.t,
     valid_request q ->
     exists data, Req.encode q = Ok data /\ Req.decode self data = Ok q) /\
  (forall self r : t,
     valid_response r ->
     exists data, encode r = Ok data /\ decode self data = Ok r).
Proof.
  split.
  - intros self [sfc rc oid] (Hsfc & Hrc & Hoid). simpl in *.
    unfold Req.encode. cbn [pystruct.pack Req.sub_function_code
                              Req.read_code Req.object_id].
    destruct (pack_B_in_range sfc Hsfc) as (a & -> & <-).
    destruct (pack_B_in_range rc Hrc) as (b & -> & <-).
    destruct (pack_B_in_range oid Hoid) as (c & -> & <-).
    cbn [bind]. eexists. split; reflexivity.
  - intros self r (Hheader & Hnodup & Hitems).
    destruct (pack_in_range _ Hheader) as (packet & Hpack).
    destruct (encode_loop_Ok (information r) packet Hitems) as (frame & Hloop).
    assert (Hencode : encode r = Ok frame).
    { unfold encode. rewrite Hpack. exact Hloop. }
    exists frame. split; [exact Hencode|].
    rewrite (decode_encode self r frame Hencode).
    rewrite (setitems_fresh (information r) []) by exact Hnodup.
    destruct r; reflexivity.
Qed.

Lemma decode_encode_round_trip_witness :
  (exists data,
     Req.encode (Req.mk 0x0e 1 0) = Ok data /\
     Req.decode (Req.mk 0 0 0) data = Ok (Req.mk 0x0e 1 0)) /\
  (exists data,
     encode (mk 0x0e 1 [(1, [x41; x42]); (0, [x43])] 2 0x83 0 0) = Ok data /\
     decode (mk 0 0 [] 0 0 0 0) data
     = Ok (mk 0x0e 1 [(1, [x41; x42]); (0, [x43])] 2 0x83 0 0)).
Proof.
  split.
  - apply (proj1 decode_encode_round_trip (Req.mk 0 0 0) (Req.mk 0x0e 1 0)).
    unfold valid_request. simpl. lia.
  - apply (proj2 decode_encode_round_trip (mk 0 0 [] 0 0 0 0)
             (mk 0x0e 1 [(1, [x41; x42]); (0, [x43])] 2 0x83 0 0)).
    unfold valid_response. simpl. split; [|split].
    + repeat constructor; lia.
    + repeat constructor; simpl; intuition lia.
    + repeat constructor; simpl; unfold len; simpl; lia.
Defined.

(** ** Truncated trailing objects *)

(** C2 fails as stated: after a six-byte header, an object that declares
    3 bytes of payload with 1 byte left in the buffer decodes to a
    response whose entry holds that 1 byte. *)
Lemma decode_truncated_payload_counterexample :
  let self :=
    __init__ DeviceInformation.Basic MoreData.Nothing None None in
  let data := [x0e; x01; x83; x00; x00; x01; x00; x03; x41] in
  pystruct.unpack_BB (slice data 6 8) = Ok (0, 3) /\
  len data < 8 + 3 /\
  decode self data = Ok (mk 0x0e 1 [(0, [x41])] 1 0x83 0 0) /\
  decode self data <> Raise struct_error.
Proof.
  repeat split. discriminate.
Qed.

(** C2, as amended. After an encoded response (header and whole objects),
    [decode] raises [struct.error] when a single byte follows, which cuts
    an object's [(object_id, object_length)] pair; when the pair is whole
    and fewer than [object_length] payload bytes follow, [decode] returns
    the response, and the entry of that object holds the bytes that are
    there. *)
Theorem decode_truncated_trailing_object (self r : t) (frame : bytes) :
  encode r = Ok frame ->
  (forall b : byte, decode self (frame ++ [b]) = Raise struct_error) /\
  (forall (object_id object_length : byte) (partial : bytes),
     len partial < Z_of_byte object_length ->
     decode self (frame ++ [object_id; object_length] ++ partial) =
     Ok (mk (sub_function_code r) (read_code r)
           (setitem (setitems [] (information r))
              (Z_of_byte object_id) partial)
           (number_of_objects r) (conformity r) (next_object_id r)
           (more_follows r))).
Proof.
  intros Hencode. split.
  - intros b. rewrite (decode_encode_app self r frame [b] Hencode).
    rewrite decode_loop_unfold.
    replace (len frame <? len (frame ++ [b])) with true
      by (symmetry; apply Z.ltb_lt; rewrite len_app; unfold len; simpl; lia).
    rewrite slice_app_tail by (unfold len; simpl; lia).
    reflexivity.
  - intros object_id object_length partial Hshort.
    rewrite (decode_encode_app self r frame _ Hencode).
    rewrite decode_loop_unfold.
    pose proof (len_nonneg partial) as Hpartial.
    replace (len frame <? len (frame ++ [object_id; object_length] ++ partial))
      with true
      by (symmetry; apply Z.ltb_lt; rewrite !len_app;
          change (len [object_id; object_length]) with 2; lia).
    change 2 with (len [object_id; object_length]) at 1.
    rewrite slice_app_mid. cbn [pystruct.unpack_BB bind]. cbv zeta.
    replace (len frame + (Z_of_byte object_length + 2)
             - Z_of_byte object_length)
      with (len (frame ++ [object_id; object_length]))
      by (rewrite len_app; change (len [object_id; object_length]) with 2; lia).
    rewrite (app_assoc frame).
    rewrite slice_app_tail
      by (rewrite len_app; change (len [object_id; object_length]) with 2; lia).
    rewrite decode_loop_at_end
      by (rewrite !len_app; change (len [object_id; object_length]) with 2; lia).
    reflexivity.
Qed.

Lemma decode_truncated_trailing_object_witness :
  decode (mk 0 0 [] 0 0 0 0) ([x0e; x01; x83; x00; x00; x01] ++ [x07])
  = Raise struct_error /\
  decode (mk 0 0 [] 0 0 0 0)
    ([x0e; x01; x83; x00; x00; x01] ++ [x00; x03] ++ [x41])
  = Ok (mk 0x0e 1 [(0, [x41])] 1 0x83 0 0).
Proof.
  split.
  - apply (proj1 (decode_truncated_trailing_object (mk 0 0 [] 0 0 0 0)
                    (mk 0x0e 1 [] 1 0x83 0 0)
                    [x0e; x01; x83; x00; x00; x01] eq_refl)).
  - apply (proj2 (decode_truncated_trailing_object (mk 0 0 [] 0 0 0 0)
                    (mk 0x0e 1 [] 1 0x83 0 0)
                    [x0e; x01; x83; x00; x00; x01] eq_refl)
             x00 x03 [x41]).
    reflexivity.
Defined.

(** ** Frame-size estimates along growing prefixes *)

(** A longer prefix extends a shorter one. *)
Lemma firstn_extends {A : Type} (i j : nat) (l : list A) :
  (i <= j)%nat -> firstn j l = firstn i l ++ firstn (j - i) (skipn i l).
Proof.
  revert j l. induction i as [|i IH]; intros j l Hij.
  - rewrite Nat.sub_0_r. reflexivity.
  - destruct j as [|j]; [lia|].
    destruct l as [|x l]; simpl.
    + rewrite firstn_nil. reflexivity.
    + f_equal. apply IH. lia.
Qed.

(** More bytes never lower what the object loop returns. *)
Lemma calculate_rtu_frame_size_loop_mono
  (count : nat) (p ext : bytes) (size : Z) :
  0 <= size ->
  exists n1 n2,
    calculate_rtu_frame_size_loop count p size = Ok n1 /\
    calculate_rtu_frame_size_loop count (p ++ ext) size = Ok n2 /\
    n1 <= n2.
Proof.
  revert size. induction count as [|count IH]; intros size Hsize.
  - exists (size + 2), (size + 2). repeat split; lia.
  - destruct (calculate_rtu_frame_size_loop_Ok (S count) (p ++ ext) size Hsize)
      as (n2 & Hn2 & Hle).
    cbn [calculate_rtu_frame_size_loop] in *.
    destruct (Z.ltb_spec (len p) (size + 2)) as [Hshort|Hlong].
    + exists (size + 2), n2. repeat split; [exact Hn2 | lia].
    + pose proof (len_nonneg ext).
      destruct (Z.ltb_spec (len (p ++ ext)) (size + 2)) as [Hshort'|_];
        [rewrite len_app in Hshort'; lia|].
      rewrite slice_app_l by lia.
      destruct (slice_two p size Hsize Hlong) as (x & y & ->).
      cbn [pystruct.unpack_BB bind].
      apply IH. pose proof (Z_of_byte_range y). lia.
Qed.

(** Every estimate is at least 10. *)
Lemma calculate_rtu_frame_size_lower_bound (data : bytes) (n : Z) :
  calculate_rtu_frame_size data = Ok n -> 10 <= n.
Proof.
  unfold calculate_rtu_frame_size.
  destruct (Z.leb_spec (len data) 7) as [_|Hlong].
  - intros [= <-]. lia.
  - destruct (getitem_Ok data 7) as (b & _ & ->); [lia|]. cbn [bind].
    destruct (calculate_rtu_frame_size_loop_Ok
                (Z.to_nat (Z_of_byte b)) data 8) as (m & -> & Hle); [lia|].
    intros [= <-]. lia.
Qed.

(** The estimate for a buffer is at most the estimate for any buffer that
    extends it. *)
Lemma calculate_rtu_frame_size_mono (p ext : bytes) :
  exists n1 n2,
    calculate_rtu_frame_size p = Ok n1 /\
    calculate_rtu_frame_size (p ++ ext) = Ok n2 /\
    n1 <= n2.
Proof.
  destruct (calculate_rtu_frame_size_Ok (p ++ ext)) as (n2 & Hn2).
  pose proof (calculate_rtu_frame_size_lower_bound _ _ Hn2) as Hlow.
  unfold calculate_rtu_frame_size in *.
  destruct (Z.leb_spec (len p) 7) as [Hshort|Hlong].
  - exists 10, n2. repeat split; [exact Hn2 | exact Hlow].
  - pose proof (len_nonneg ext).
    destruct (Z.leb_spec (len (p ++ ext)) 7) as [Hshort'|_];
      [rewrite len_app in Hshort'; lia|].
    destruct (getitem_Ok p 7) as (b & Hnth & Hget); [lia|].
    destruct (getitem_Ok (p ++ ext) 7) as (b' & Hnth' & Hget');
      [rewrite len_app; lia|].
    rewrite nth_error_app1 in Hnth' by (unfold len in Hlong; lia).
    rewrite Hnth in Hnth'. injection Hnth' as <-.
    rewrite Hget, Hget'. cbn [bind].
    apply calculate_rtu_frame_size_loop_mono. lia.
Qed.

(** The object loop, run over encoded objects with their count, returns
    their end plus 2, whatever bytes follow. *)
Lemma calculate_rtu_frame_size_loop_encoded (items : list (Z * bytes)) :
  forall packet frame rest : bytes,
    encode_loop items packet = Ok frame ->
    calculate_rtu_frame_size_loop (length items) (frame ++ rest) (len packet)
    = Ok (len frame + 2).
Proof.
  induction items as [|[object_id data] items IH];
    intros packet frame rest; cbn [encode_loop length calculate_rtu_frame_size_loop].
  - intros [= <-]. reflexivity.
  - destruct (pystruct.pack [object_id; len data]) as [header|e] eqn:Hpack;
      cbn [bind]; [|discriminate].
    intros Hloop.
    destruct (pack_object_header _ _ _ Hpack) as [Hlen Hunpack].
    rewrite <- (IH _ _ rest Hloop).
    apply encode_loop_app in Hloop as (body & _ & ->).
    pose proof (len_nonneg packet). pose proof (len_nonneg data).
    pose proof (len_nonneg body). pose proof (len_nonneg rest).
    replace (len ((((packet ++ header) ++ data) ++ body) ++ rest)
             <? len packet + 2)
      with false by (symmetry; apply Z.ltb_ge; rewrite !len_app; lia).
    replace ((((packet ++ header) ++ data) ++ body) ++ rest)
      with (packet ++ header ++ (data ++ body ++ rest)) at 1
      by (rewrite !app_assoc; reflexivity).
    rewrite <- Hlen at 1. rewrite slice_app_mid, Hunpack. cbn [bind].
    rewrite !len_app. rewrite Hlen. f_equal. lia.
Qed.

(** The length of what the object loop of [encode] appends. *)
Lemma encode_loop_len (items : list (Z * bytes)) :
  forall packet frame : bytes,
    encode_loop items packet = Ok frame ->
    len frame = len packet + objects_size items.
Proof.
  induction items as [|[object_id data] items IH];
    intros packet frame; cbn [encode_loop objects_size fold_right snd].
  - intros [= <-]. lia.
  - destruct (pystruct.pack [object_id; len data]) as [header|e] eqn:Hpack;
      cbn [bind]; [|discriminate].
    intros Hloop. rewrite (IH _ _ Hloop).
    destruct (pack_object_header _ _ _ Hpack) as [Hlen _].
    rewrite !len_app, Hlen. fold (objects_size items). lia.
Qed.

(** C5. Along the growing prefixes of a complete frame the estimates of
    [calculate_rtu_frame_size] never go down, and on the whole frame the
    estimate is the length of the frame:
    8 + the sum over the objects of (2 + object_length) + 2. *)
Theorem calculate_rtu_frame_size_prefixes (r : t) (b : bytes) :
  complete_frame r b ->
  (forall i j : nat,
     (i <= j)%nat ->
     exists ni nj,
       calculate_rtu_frame_size (firstn i b) = Ok ni /\
       calculate_rtu_frame_size (firstn j b) = Ok nj /\
       ni <= nj) /\
  calculate_rtu_frame_size b = Ok (8 + objects_size (information r) + 2) /\
  len b = 8 + objects_size (information r) + 2.
Proof.
  intros (Hcount & address & code & pdu & crc & Hencode & Hcrc & ->).
  split.
  - intros i j Hij.
    set (b := address :: code :: pdu ++ crc).
    rewrite (firstn_extends i j b Hij).
    apply calculate_rtu_frame_size_mono.
  - pose proof Hencode as Hheader.
    apply encode_header in Hheader as (packet & body & -> & Hbody & Hpacket).
    destruct packet as [|h1 [|h2 [|h3 [|h4 [|h5 [|h6 [|h7 tail]]]]]]];
      try discriminate.
    injection Hpacket as _ _ _ _ _ Hh6.
    set (packet := [address; code; h1; h2; h3; h4; h5; h6]).
    assert (Hloop : encode_loop (information r) packet = Ok (packet ++ body)).
    { rewrite encode_loop_prefix, Hbody. reflexivity. }
    pose proof (encode_loop_len _ _ _ Hloop) as Hlen.
    change (len packet) with 8 in Hlen.
    change (address :: code :: ([h1; h2; h3; h4; h5; h6] ++ body) ++ crc)
      with ((packet ++ body) ++ crc).
    split.
    + unfold calculate_rtu_frame_size.
      pose proof (len_nonneg body).
      destruct (Z.leb_spec (len ((packet ++ body) ++ crc)) 7) as [Hshort|_];
        [rewrite !len_app in Hshort; change (len packet) with 8 in Hshort; lia|].
      destruct (getitem_Ok ((packet ++ body) ++ crc) 7) as (b & Hnth & ->);
        [rewrite !len_app; change (len packet) with 8;
         pose proof (len_nonneg crc); lia|].
      change (nth_error ((packet ++ body) ++ crc) (Z.to_nat 7))
        with (Some h6) in Hnth.
      injection Hnth as <-.
      cbn [bind]. rewrite Hh6, Hcount.
      replace (Z.to_nat (len (information r)))
        with (length (information r)) by (unfold len; lia).
      change 8 with (len packet) at 1.
      rewrite (calculate_rtu_frame_size_loop_encoded _ _ _ crc Hloop).
      rewrite Hlen. reflexivity.
    + rewrite len_app, Hlen, Hcrc. reflexivity.
Qed.

Lemma calculate_rtu_frame_size_prefixes_witness :
  let r := mk 0x0e 1 [(0, [x41; x42; x43]); (1, [x44])] 2 0x83 0 0 in
  let b := [x01; x2b; x0e; x01; x83; x00; x00; x02;
            x00; x03; x41; x42; x43; x01; x01; x44; xff; xff] in
  complete_frame r b /\
  calculate_rtu_frame_size b = Ok 18 /\
  len b = 18.
Proof.
  intros r b.
  assert (Hframe : complete_frame r b).
  { split; [reflexivity|].
    exists x01, x2b,
      [x0e; x01; x83; x00; x00; x02; x00; x03; x41; x42; x43; x01; x01; x44],
      [xff; xff].
    split; [reflexivity|]. split; reflexivity. }
  split; [exact Hframe|].
  exact (proj2 (calculate_rtu_frame_size_prefixes r b Hframe)).
Defined.

(** * Further properties of the codec *)

(** ** The request codec *)

Lemma pack_Ok_range (args : list Z) (bs : bytes) :
  pystruct.pack args = Ok bs -> Forall (fun x => 0 <= x <= 255) args.
Proof.
  intros Hpack. apply pack_Ok in Hpack. subst args.
  induction bs as [|b bs IH]; simpl; constructor.
  - apply Z_of_byte_range.
  - exact IH.
Qed.

Lemma Z_of_byte_inj (a b : byte) : Z_of_byte a = Z_of_byte b -> a = b.
Proof.
  unfold Z_of_byte. intros Heq. apply N2Z.inj in Heq.
  pose proof (Byte.of_to_N a) as Ha. rewrite Heq, Byte.of_to_N in Ha.
  injection Ha as <-. reflexivity.
Qed.

(** X1. [decode] of a request accepts the buffers of exactly 3 bytes and
    raises [struct.error] on every other one, longer ones included. *)
Theorem request_decode_exact_length (self : Req.t) (data : bytes) :
  (len data = 3 <-> exists q, Req.decode self data = Ok q) /\
  (len data <> 3 <-> Req.decode self data = Raise struct_error).
Proof.
  unfold Req.decode.
  destruct data as [|a [|b [|c [|d rest]]]]; cbn [pystruct.unpack_BBB bind];
    rewrite ?len_cons; try pose proof (len_nonneg rest) as Hrest;
    (split; split; intros H;
     try discriminate; try reflexivity; try lia;
     try (destruct H as (q & H); discriminate);
     try (eexists; reflexivity)).
  all: unfold len in *; simpl in *; try lia; try discriminate.
Qed.

(** X2. A decoded request encodes to the buffer it came from, and its
    attributes are single bytes. *)
Theorem request_encode_decode (self q : Req.t) (data : bytes) :
  Req.decode self data = Ok q ->
  Req.encode q = Ok data /\ valid_request q.
Proof.
  unfold Req.decode.
  destruct data as [|a [|b [|c [|d rest]]]]; try discriminate.
  cbn [pystruct.unpack_BBB bind]. intros [= <-].
  split.
  - unfold Req.encode.
    cbn [pystruct.pack Req.sub_function_code Req.read_code Req.object_id].
    destruct (pack_B_in_range _ (Z_of_byte_range a)) as (a' & Ha & Ha').
    destruct (pack_B_in_range _ (Z_of_byte_range b)) as (b' & Hb & Hb').
    destruct (pack_B_in_range _ (Z_of_byte_range c)) as (c' & Hc & Hc').
    rewrite Ha, Hb, Hc. cbn [bind].
    apply Z_of_byte_inj in Ha', Hb', Hc'. subst. reflexivity.
  - repeat split; cbn; apply Z_of_byte_range.
Qed.

Lemma request_encode_decode_witness :
  Req.encode (Req.mk 0x0e 4 0xff) = Ok [x0e; x04; xff] /\
  valid_request (Req.mk 0x0e 4 0xff).
Proof.
  apply (request_encode_decode (Req.mk 0 0 0) (Req.mk 0x0e 4 0xff)
           [x0e; x04; xff] eq_refl).
Defined.

(** X3. [encode] of a request returns three bytes, the three attributes,
    when each attribute is a single byte, and raises [struct.error] as
    soon as one of them is not. *)
Theorem request_encode_exact (q : Req.t) :
  (valid_request q <->
   exists a b c,
     Req.encode q = Ok [a; b; c] /\
     Z_of_byte a = Req.sub_function_code q /\
     Z_of_byte b = Req.read_code q /\
     Z_of_byte c = Req.object_id q) /\
  (~ valid_request q <-> Req.encode q = Raise struct_error).
Proof.
  assert (Hok : valid_request q ->
                exists a b c,
                  Req.encode q = Ok [a; b; c] /\
                  Z_of_byte a = Req.sub_function_code q /\
                  Z_of_byte b = Req.read_code q /\
                  Z_of_byte c = Req.object_id q).
  { intros (Hsfc & Hrc & Hoid). unfold Req.encode. cbn [pystruct.pack].
    destruct (pack_B_in_range _ Hsfc) as (a & -> & Ha).
    destruct (pack_B_in_range _ Hrc) as (b & -> & Hb).
    destruct (pack_B_in_range _ Hoid) as (c & -> & Hc).
    exists a, b, c. repeat split; assumption. }
  assert (Hinv : forall data, Req.encode q = Ok data -> valid_request q).
  { intros data. unfold Req.encode.
    destruct (pystruct.pack _) as [packet|e] eqn:Hpack; [|discriminate].
    intros _. apply pack_Ok_range in Hpack.
    inversion Hpack as [|x1 l1 H1 Hpack1]; subst.
    inversion Hpack1 as [|x2 l2 H2 Hpack2]; subst.
    inversion Hpack2 as [|x3 l3 H3 _]; subst.
    repeat split; lia. }
  split; split.
  - exact Hok.
  - intros (a & b & c & Hencode & _). exact (Hinv _ Hencode).
  - intros Hinvalid. destruct (Req.encode q) as [data|e] eqn:Hencode.
    + destruct Hinvalid. exact (Hinv data eq_refl).
    + f_equal. unfold Req.encode in Hencode.
      destruct (pystruct.pack _) as [packet|e'] eqn:Hpack; [discriminate|].
      injection Hencode as <-. exact (pack_Raise _ _ Hpack).
  - intros Hraise Hvalid. destruct (Hok Hvalid) as (a & b & c & Hencode & _).
    rewrite Hencode in Hraise. discriminate.
Qed.

(** ** What [encode] of a response accepts *)

Lemma encode_loop_Ok_inv (items : list (Z * bytes)) :
  forall packet frame : bytes,
    encode_loop items packet = Ok frame ->
    Forall (fun item => 0 <= fst item <= 255 /\ len (snd item) <= 255) items.
Proof.
  induction items as [|[object_id data] items IH];
    intros packet frame; cbn [encode_loop]; [constructor|].
  destruct (pystruct.pack [object_id; len data]) as [header|e] eqn:Hpack;
    cbn [bind]; [|discriminate].
  intros Hloop. apply pack_Ok_range in Hpack.
  inversion Hpack as [|x1 l1 H1 Hpack1]; subst.
  inversion Hpack1 as [|x2 l2 H2 _]; subst.
  constructor; [cbn; lia | exact (IH _ _ Hloop)].
Qed.

(** X4. [encode] of a response returns a frame exactly when the six header
    attributes and every id are single bytes and no payload is longer than
    255 bytes, and raises [struct.error] otherwise; the frame has 6 bytes
    of header and, for each entry, 2 bytes and the payload. *)
Theorem response_encode_exact (r : t) :
  (encodable r <-> exists frame, encode r = Ok frame) /\
  (~ encodable r <-> encode r = Raise struct_error) /\
  (forall frame,
     encode r = Ok frame -> len frame = 6 + objects_size (information r)).
Proof.
  assert (Hok : encodable r -> exists frame, encode r = Ok frame).
  { intros (Hheader & Hitems). unfold encode.
    destruct (pack_in_range _ Hheader) as (packet & ->). cbn [bind].
    apply encode_loop_Ok. exact Hitems. }
  assert (Hinv : forall frame, encode r = Ok frame -> encodable r).
  { intros frame. unfold encode.
    destruct (pystruct.pack _) as [packet|e] eqn:Hpack; [|discriminate].
    cbn [bind]. intros Hloop. split.
    - exact (pack_Ok_range _ _ Hpack).
    - exact (encode_loop_Ok_inv _ _ _ Hloop). }
  split; [|split].
  - split; [exact Hok|]. intros (frame & Hencode). exact (Hinv _ Hencode).
  - split.
    + intros Hinvalid. destruct (encode r) as [frame|e] eqn:Hencode.
      * destruct Hinvalid. exact (Hinv _ eq_refl).
      * f_equal. exact (encode_Raise _ _ Hencode).
    + intros Hraise Hvalid. destruct (Hok Hvalid) as (frame & Hencode).
      rewrite Hencode in Hraise. discriminate.
  - intros frame. unfold encode.
    destruct (pystruct.pack _) as [packet|e] eqn:Hpack; [|discriminate].
    cbn [bind]. intros Hloop. rewrite (encode_loop_len _ _ _ Hloop).
    apply pack_Ok in Hpack. apply (f_equal (@length Z)) in Hpack.
    rewrite length_map in Hpack. unfold len at 1. rewrite Hpack. reflexivity.
Qed.

Lemma response_encode_exact_witness :
  len [x0e; x01; x83; x00; x00; x01; x07; x02; x41; x42]
  = 6 + objects_size [(7, [x41; x42])].
Proof.
  apply (proj2 (proj2 (response_encode_exact
                         (mk 0x0e 1 [(7, [x41; x42])] 1 0x83 0 0)))
           [x0e; x01; x83; x00; x00; x01; x07; x02; x41; x42] eq_refl).
Defined.

(** ** What [decode] of a response returns *)

Lemma pack_of_bytes (bs : bytes) : pystruct.pack (map Z_of_byte bs) = Ok bs.
Proof.
  induction bs as [|b bs IH]; cbn [map pystruct.pack]; [reflexivity|].
  destruct (pack_B_in_range _ (Z_of_byte_range b)) as (b' & -> & Hb').
  apply Z_of_byte_inj in Hb'. subst b'. rewrite IH. reflexivity.
Qed.

Lemma unpack_BB_Ok (data : bytes) (a b : Z) :
  pystruct.unpack_BB data = Ok (a, b) ->
  exists x y, data = [x; y] /\ a = Z_of_byte x /\ b = Z_of_byte y.
Proof.
  destruct data as [|x [|y [|z rest]]]; simpl; try discriminate.
  intros [= <- <-]. exists x, y. repeat split.
Qed.

(** The length of a slice with bounds in the order [0 <= lo <= hi]. *)
Lemma slice_len {A : Type} (data : list A) (lo hi : Z) :
  0 <= lo <= hi ->
  len (slice data lo hi) = Z.min hi (len data) - Z.min lo (len data).
Proof.
  intros Hlo. unfold slice, slice_index.
  destruct (Z.ltb_spec lo 0); [lia|].
  destruct (Z.ltb_spec hi 0); [lia|].
  pose proof (len_nonneg data) as Hdata.
  unfold len in *. rewrite length_firstn, length_skipn. lia.
Qed.

(** The rule of the loop of [decode]: what holds of the dict and the
    cursor before the loop and is kept by every round holds when the loop
    is left, with the cursor at or beyond the end of the buffer. *)
Lemma decode_loop_invariant (data : bytes) (I : dict -> Z -> Prop) :
  (forall information count x y,
     I information count -> count < len data ->
     slice data count (count + 2) = [x; y] ->
     I (setitem information (Z_of_byte x)
          (slice data (count + 2) (count + (Z_of_byte y + 2))))
       (count + (Z_of_byte y + 2))) ->
  forall information count information',
    I information count ->
    decode_loop data information count = Ok information' ->
    exists count', I information' count' /\ len data <= count'.
Proof.
  intros Hstep information count.
  remember (Z.to_nat (len data - count)) as m eqn:Hm.
  revert information count Hm.
  induction m as [m IH] using lt_wf_ind.
  intros information count Hm information' Hinv.
  rewrite decode_loop_unfold.
  destruct (Z.ltb_spec count (len data)) as [Hlt|Hge].
  - destruct (pystruct.unpack_BB (slice data count (count + 2)))
      as [[object_id object_length]|e] eqn:Hunpack; cbn [bind];
      [|discriminate].
    apply unpack_BB_Ok in Hunpack as (x & y & Hslice & -> & ->).
    cbv zeta.
    replace (count + (Z_of_byte y + 2) - Z_of_byte y) with (count + 2) by lia.
    pose proof (Z_of_byte_range y).
    apply (IH (Z.to_nat (len data - (count + (Z_of_byte y + 2))))); [lia | reflexivity|].
    apply Hstep; assumption.
  - intros [= <-]. exists count. split; [assumption | lia].
Qed.

Lemma keys_setitem (d : dict) (k : Z) (v : bytes) :
  keys (setitem d k v) = if existsb (Z.eqb k) (keys d) then keys d
                         else keys d ++ [k].
Proof.
  induction d as [|[k' v'] d IH]; cbn [setitem keys map fst existsb];
    [reflexivity|].
  rewrite (Z.eqb_sym k k').
  destruct (Z.eqb_spec k' k) as [->|Hne]; cbn [orb map fst]; [reflexivity|].
  fold (keys (setitem d k v)). fold (keys d). rewrite IH.
  destruct (existsb (Z.eqb k) (keys d)); reflexivity.
Qed.

(** Assignment keeps the keys of a dict distinct. *)
Lemma setitem_NoDup (d : dict) (k : Z) (v : bytes) :
  NoDup (keys d) -> NoDup (keys (setitem d k v)).
Proof.
  intros Hnodup. rewrite keys_setitem.
  destruct (existsb (Z.eqb k) (keys d)) eqn:Hmem; [exact Hnodup|].
  apply NoDup_app; [exact Hnodup | repeat constructor; intros [] |].
  intros k' Hin [<-|[]].
  assert (Htrue : existsb (Z.eqb k) (keys d) = true).
  { apply existsb_exists. exists k. split; [exact Hin | apply Z.eqb_refl]. }
  congruence.
Qed.

Lemma setitem_Forall (P : Z * bytes -> Prop) (d : dict) (k : Z) (v : bytes) :
  Forall P d -> P (k, v) -> Forall P (setitem d k v).
Proof.
  intros Hall Hnew. induction Hall as [|[k' v'] d Hhead Htail IH];
    cbn [setitem].
  - repeat constructor. exact Hnew.
  - destruct (k' =? k); constructor; assumption.
Qed.

Lemma setitem_len (d : dict) (k : Z) (v : bytes) :
  len d <= len (setitem d k v) <= len d + 1.
Proof.
  induction d as [|[k' v'] d IH]; cbn [setitem].
  - unfold len. simpl. lia.
  - destruct (k' =? k); rewrite !len_cons; lia.
Qed.

Lemma unpack_BBBBBB_Ok (data : bytes) (a b c d e f : Z) :
  pystruct.unpack_BBBBBB data = Ok (a, b, c, d, e, f) ->
  len data = 6 /\ Forall (fun x => 0 <= x <= 255) [a; b; c; d; e; f].
Proof.
  destruct data as [|x1 [|x2 [|x3 [|x4 [|x5 [|x6 [|x7 rest]]]]]]];
    simpl; try discriminate.
  intros [= <- <- <- <- <- <-].
  split; [reflexivity|]. repeat constructor; apply Z_of_byte_range.
Qed.

(** The parts of a successful [decode]: six header bytes and a run of the
    loop from offset 6. *)
Lemma decode_Ok_inv (self r : t) (data : bytes) :
  decode self data = Ok r ->
  6 <= len data /\
  Forall (fun x => 0 <= x <= 255)
    [sub_function_code r; read_code r; conformity r;
     more_follows r; next_object_id r; number_of_objects r] /\
  decode_loop data [] 6 = Ok (information r).
Proof.
  unfold decode.
  destruct (pystruct.unpack_BBBBBB (slice data 0 6))
    as [[[[[[a b] c] d] e] f]|err] eqn:Hunpack; cbn [bind]; [|discriminate].
  destruct (decode_loop data [] 6) as [information|err]; cbn [bind];
    [|discriminate].
  intros [= <-]. cbn.
  apply unpack_BBBBBB_Ok in Hunpack as [Hlen Hrange].
  rewrite slice_len in Hlen by lia. pose proof (len_nonneg data).
  repeat split; [lia | exact Hrange].
Qed.

Lemma decode_valid_response (self r : t) (data : bytes) :
  decode self data = Ok r -> valid_response r.
Proof.
  intros Hdecode. apply decode_Ok_inv in Hdecode as (_ & Hheader & Hloop).
  split; [exact Hheader|].
  apply (decode_loop_invariant data
           (fun information count =>
              6 <= count /\ NoDup (keys information) /\
              Forall (fun item => 0 <= fst item <= 255 /\
                                  len (snd item) <= 255) information))
    in Hloop as (count' & (_ & Hnodup & Hitems) & _).
  - split; assumption.
  - intros information count x y (Hcount & Hnodup & Hitems) _ _.
    pose proof (Z_of_byte_range x). pose proof (Z_of_byte_range y).
    split; [lia|]. split; [apply setitem_NoDup; exact Hnodup|].
    apply setitem_Forall; [exact Hitems|]. cbn [fst snd].
    split; [lia|]. rewrite slice_len by lia. lia.
  - split; [lia|]. split; constructor.
Qed.

(** A valid response encodes, and the frame decodes to it. *)
Lemma valid_response_round_trip (r : t) :
  valid_response r ->
  exists frame, encode r = Ok frame /\ forall self, decode self frame = Ok r.
Proof.
  intros (Hheader & Hnodup & Hitems).
  destruct (pack_in_range _ Hheader) as (packet & Hpack).
  destruct (encode_loop_Ok (information r) packet Hitems) as (frame & Hloop).
  assert (Hencode : encode r = Ok frame).
  { unfold encode. rewrite Hpack. exact Hloop. }
  exists frame. split; [exact Hencode|]. intros self.
  rewrite (decode_encode self r frame Hencode).
  rewrite (setitems_fresh (information r) []) by exact Hnodup.
  destruct r; reflexivity.
Qed.

(** X5. Whatever buffer [decode] accepts, the response it returns is valid:
    the six header attributes and every id are single bytes, the ids are
    pairwise distinct and no payload is longer than 255 bytes. *)
Theorem decode_returns_valid_response (self r : t) (data : bytes) :
  decode self data = Ok r -> valid_response r.
Proof.
  apply decode_valid_response.
Qed.

Lemma decode_returns_valid_response_witness :
  valid_response (mk 0x0e 1 [(0, [x41]); (1, [])] 9 0x83 0 0).
Proof.
  apply (decode_returns_valid_response (mk 0 0 [] 0 0 0 0) _
           [x0e; x01; x83; x00; x00; x09; x00; x03; x42; x43; x44;
            x01; x00; x00; x03; x41]
           eq_refl).
Defined.

(** X6. A decoded response always encodes, and the frame decodes to the same
    response: decoding what was decoded and encoded again changes
    nothing, also when the first buffer held repeated ids or a cut
    payload. *)
Theorem decode_encode_decode (self r : t) (data : bytes) :
  decode self data = Ok r ->
  exists frame,
    encode r = Ok frame /\ (forall self', decode self' frame = Ok r).
Proof.
  intros Hdecode. apply valid_response_round_trip.
  exact (decode_valid_response _ _ _ Hdecode).
Qed.

Lemma decode_encode_decode_witness :
  exists frame,
    encode (mk 0x0e 1 [(0, [x41]); (1, [])] 9 0x83 0 0) = Ok frame /\
    forall self',
      decode self' frame = Ok (mk 0x0e 1 [(0, [x41]); (1, [])] 9 0x83 0 0).
Proof.
  apply (decode_encode_decode (mk 0 0 [] 0 0 0 0) _
           [x0e; x01; x83; x00; x00; x09; x00; x03; x42; x43; x44;
            x01; x00; x00; x03; x41]
           eq_refl).
Defined.

(** X7. Every entry of a decoded response took at least its two header bytes
    from the buffer: twice the number of entries is at most the number
    of bytes after the six-byte header. *)
Theorem decode_entries_bound (self r : t) (data : bytes) :
  decode self data = Ok r ->
  2 * len (information r) <= len data - 6.
Proof.
  intros Hdecode. apply decode_Ok_inv in Hdecode as (Hlen & _ & Hloop).
  apply (decode_loop_invariant data
           (fun information count =>
              6 <= count /\
              2 * len information <= Z.min count (len data) - 6))
    in Hloop as (count' & (_ & Hbound) & _).
  - lia.
  - intros information count x y (Hcount & Hbound) Hlt Hslice.
    pose proof (Z_of_byte_range y).
    pose proof (setitem_len information (Z_of_byte x)
                  (slice data (count + 2) (count + (Z_of_byte y + 2)))).
    apply (f_equal len) in Hslice. rewrite slice_len in Hslice by lia.
    change (len [x; y]) with 2 in Hslice.
    split; lia.
  - change (len (@nil (Z * bytes))) with 0. lia.
Qed.

Lemma decode_entries_bound_witness :
  2 * len [(0, [x41]); (1, [])] <= len [x0e; x01; x83; x00; x00; x09;
                                       x00; x01; x41; x01; x00] - 6.
Proof.
  apply (decode_entries_bound (mk 0 0 [] 0 0 0 0)
           (mk 0x0e 1 [(0, [x41]); (1, [])] 9 0x83 0 0)
           [x0e; x01; x83; x00; x00; x09; x00; x01; x41; x01; x00]
           eq_refl).
Defined.

(** ** Repeated ids and the count byte in [decode] *)

Lemma dict_get_setitem (d : dict) (k k' : Z) (v : bytes) :
  dict_get (setitem d k v) k' =
  if k =? k' then Some v else dict_get d k'.
Proof.
  induction d as [|[k0 v0] d IH]; cbn [setitem dict_get]; [reflexivity|].
  destruct (Z.eqb_spec k0 k) as [->|Hne]; cbn [dict_get].
  - destruct (k =? k'); reflexivity.
  - rewrite IH. destruct (Z.eqb_spec k0 k') as [->|_]; [|reflexivity].
    destruct (Z.eqb_spec k k'); [congruence | reflexivity].
Qed.

(** After a run of assignments a key holds the payload of the last
    assignment to it, or what it held before when there was none. *)
Lemma dict_get_setitems (items : list (Z * bytes)) (d : dict) (k : Z) :
  dict_get (setitems d items) k =
  match last_payload items k with
  | Some v => Some v
  | None => dict_get d k
  end.
Proof.
  induction items as [|[k' v'] items IH] using rev_ind; [reflexivity|].
  unfold setitems, last_payload.
  rewrite fold_left_app, rev_app_distr. cbn [fold_left rev app find fst snd].
  fold (setitems d items). rewrite dict_get_setitem.
  destruct (k' =? k); [reflexivity|].
  exact IH.
Qed.

(** X8. [decode] of six header bytes followed by encoded objects: the
    attributes are the header bytes, and [number_of_objects] is the sixth
    one whatever the number of objects in the buffer; [information] is what
    assigning the objects in order gives, so an id that occurs more than
    once keeps the place of its first occurrence and the payload of its
    last. *)
Theorem decode_repeated_ids
  (self : t) (a b c d e f : byte) (items : list (Z * bytes)) (body : bytes) :
  encode_loop items [] = Ok body ->
  exists r,
    decode self ([a; b; c; d; e; f] ++ body) = Ok r /\
    number_of_objects r = Z_of_byte f /\
    information r = setitems [] items /\
    NoDup (keys (information r)) /\
    (forall k, dict_get (information r) k = last_payload items k).
Proof.
  intros Hbody.
  set (r0 := mk (Z_of_byte a) (Z_of_byte b) items (Z_of_byte f)
               (Z_of_byte c) (Z_of_byte e) (Z_of_byte d)).
  assert (Hencode : encode r0 = Ok ([a; b; c; d; e; f] ++ body)).
  { unfold encode.
    change [sub_function_code r0; read_code r0; conformity r0;
            more_follows r0; next_object_id r0; number_of_objects r0]
      with (map Z_of_byte [a; b; c; d; e; f]).
    rewrite pack_of_bytes. cbn [bind].
    rewrite encode_loop_prefix. cbn [information r0]. rewrite Hbody.
    reflexivity. }
  pose proof (decode_encode self r0 _ Hencode) as Hdecode.
  eexists. split; [exact Hdecode|].
  cbn [number_of_objects information r0].
  split; [reflexivity|]. split; [reflexivity|]. split.
  - pose proof (decode_valid_response _ _ _ Hdecode) as (_ & Hnodup & _).
    exact Hnodup.
  - intros k. rewrite dict_get_setitems.
    destruct (last_payload items k); reflexivity.
Qed.

Lemma decode_repeated_ids_witness :
  exists r,
    decode (mk 0 0 [] 0 0 0 0)
      ([x0e; x01; x83; x00; x00; x05] ++
       [x07; x01; x41; x02; x00; x07; x02; x42; x43]) = Ok r /\
    number_of_objects r = 5 /\
    information r = [(7, [x42; x43]); (2, [])] /\
    NoDup (keys (information r)) /\
    (forall k,
       dict_get (information r) k
       = last_payload [(7, [x41]); (2, []); (7, [x42; x43])] k).
Proof.
  apply (decode_repeated_ids (mk 0 0 [] 0 0 0 0) x0e x01 x83 x00 x00 x05
           [(7, [x41]); (2, []); (7, [x42; x43])]
           [x07; x01; x41; x02; x00; x07; x02; x42; x43] eq_refl).
Defined.

(** ** More on the frame-size estimate *)

Lemma calculate_rtu_frame_size_loop_stable
  (count : nat) (data ext : bytes) (size n : Z) :
  0 <= size ->
  calculate_rtu_frame_size_loop count data size = Ok n ->
  n <= len data ->
  calculate_rtu_frame_size_loop count (data ++ ext) size = Ok n.
Proof.
  revert size. induction count as [|count IH]; intros size Hsize;
    cbn [calculate_rtu_frame_size_loop]; [tauto|].
  destruct (Z.ltb_spec (len data) (size + 2)) as [Hshort|Hlong].
  - intros [= <-] Hle. lia.
  - pose proof (len_nonneg ext).
    destruct (Z.ltb_spec (len (data ++ ext)) (size + 2)) as [Hshort'|_];
      [rewrite len_app in Hshort'; lia|].
    rewrite slice_app_l by lia.
    destruct (slice_two data size Hsize Hlong) as (x & y & ->).
    cbn [pystruct.unpack_BB bind].
    apply IH. pose proof (Z_of_byte_range y). lia.
Qed.

Lemma calculate_rtu_frame_size_reached (data ext : bytes) (n : Z) :
  calculate_rtu_frame_size data = Ok n -> n <= len data ->
  calculate_rtu_frame_size (data ++ ext) = Ok n.
Proof.
  unfold calculate_rtu_frame_size. intros Hn Hle.
  destruct (Z.leb_spec (len data) 7) as [Hshort|Hlong].
  - injection Hn as <-. lia.
  - pose proof (len_nonneg ext).
    destruct (Z.leb_spec (len (data ++ ext)) 7) as [Hshort'|_];
      [rewrite len_app in Hshort'; lia|].
    destruct (getitem_Ok data 7) as (b & Hnth & Hget); [lia|].
    destruct (getitem_Ok (data ++ ext) 7) as (b' & Hnth' & Hget');
      [rewrite len_app; lia|].
    rewrite nth_error_app1 in Hnth' by (unfold len in Hlong; lia).
    rewrite Hnth in Hnth'. injection Hnth' as <-.
    rewrite Hget in Hn. rewrite Hget'. cbn [bind] in *.
    apply calculate_rtu_frame_size_loop_stable; [lia | exact Hn | exact Hle].
Qed.

(** X9. An estimate that the buffer has reached is final: once the buffer
    holds at least as many bytes as [calculate_rtu_frame_size] returns for
    it, no further bytes change the result. *)
Theorem calculate_rtu_frame_size_stable (data : bytes) (n : Z) :
  calculate_rtu_frame_size data = Ok n -> n <= len data ->
  forall ext, calculate_rtu_frame_size (data ++ ext) = Ok n.
Proof.
  intros Hn Hle ext. exact (calculate_rtu_frame_size_reached data ext n Hn Hle).
Qed.

Lemma calculate_rtu_frame_size_stable_witness :
  calculate_rtu_frame_size
    ([x01; x2b; x0e; x01; x83; x00; x00; x01; x00; x01; x41; xaa; xbb]
     ++ [x01; x2b; x0e]) = Ok 13.
Proof.
  apply (calculate_rtu_frame_size_stable
           [x01; x2b; x0e; x01; x83; x00; x00; x01; x00; x01; x41; xaa; xbb]
           13 eq_refl).
  discriminate.
Defined.

Lemma calculate_rtu_frame_size_loop_bounds
  (count : nat) (data : bytes) (size n : Z) :
  0 <= size ->
  calculate_rtu_frame_size_loop count data size = Ok n ->
  size + 2 <= n <= size + 2 + 257 * Z.of_nat count /\
  (n = size + 2 \/ n <= len data + 257).
Proof.
  revert size. induction count as [|count IH]; intros size Hsize;
    cbn [calculate_rtu_frame_size_loop].
  - intros [= <-]. lia.
  - destruct (Z.ltb_spec (len data) (size + 2)) as [Hshort|Hlong].
    + intros [= <-]. lia.
    + destruct (slice_two data size Hsize Hlong) as (x & y & ->).
      cbn [pystruct.unpack_BB bind]. intros Hn.
      pose proof (Z_of_byte_range y).
      apply IH in Hn; lia.
Qed.

Lemma getitem_beyond_end (data : bytes) (i : Z) :
  0 <= i -> len data <= i -> getitem data i = Raise IndexError.
Proof.
  intros Hi Hend. unfold getitem.
  destruct (Z.ltb_spec i 0); [lia|].
  destruct (Z.ltb_spec i (len data)); [lia|].
  rewrite andb_false_r. reflexivity.
Qed.

(** X10. The estimate is at least 10, at most 257 bytes beyond the end of the
    buffer it was computed from, and at most [10 + 257 * count] where
    [count] is the eighth byte of the buffer, hence never above 65545. *)
Theorem calculate_rtu_frame_size_bounds (data : bytes) (n : Z) :
  calculate_rtu_frame_size data = Ok n ->
  10 <= n <= len data + 257 /\
  n <= 65545 /\
  (forall count, getitem data 7 = Ok count -> n <= 10 + 257 * count).
Proof.
  unfold calculate_rtu_frame_size. pose proof (len_nonneg data) as Hlen.
  destruct (Z.leb_spec (len data) 7) as [Hshort|Hlong].
  - intros [= <-]. split; [lia|]. split; [lia|].
    intros count Hget. rewrite getitem_beyond_end in Hget by lia.
    discriminate.
  - destruct (getitem_Ok data 7) as (b & _ & ->); [lia|]. cbn [bind].
    intros Hn. pose proof (Z_of_byte_range b).
    apply calculate_rtu_frame_size_loop_bounds in Hn; [|lia].
    rewrite Z2Nat.id in Hn by lia.
    split; [lia|]. split; [lia|].
    intros count [= <-]. lia.
Qed.

Lemma calculate_rtu_frame_size_bounds_witness :
  10 <= 267 <= len [x01; x2b; x0e; x01; x83; x00; x00; x02; x00; xff] + 257.
Proof.
  apply (calculate_rtu_frame_size_bounds
           [x01; x2b; x0e; x01; x83; x00; x00; x02; x00; xff] 267 eq_refl).
Defined.

(** On a complete frame the estimate is the length of the frame. *)
Lemma calculate_rtu_frame_size_complete (r : t) (b : bytes) :
  complete_frame r b -> calculate_rtu_frame_size b = Ok (len b).
Proof.
  intros (Hcount & address & code & pdu & crc & Hencode & Hcrc & ->).
  apply encode_header in Hencode as (packet & body & -> & Hbody & Hpacket).
  destruct packet as [|h1 [|h2 [|h3 [|h4 [|h5 [|h6 [|h7 tail]]]]]]];
    try discriminate.
  injection Hpacket as _ _ _ _ _ Hh6.
  set (packet := [address; code; h1; h2; h3; h4; h5; h6]).
  assert (Hloop : encode_loop (information r) packet = Ok (packet ++ body)).
  { rewrite encode_loop_prefix, Hbody. reflexivity. }
  change (address :: code :: ([h1; h2; h3; h4; h5; h6] ++ body) ++ crc)
    with ((packet ++ body) ++ crc).
  unfold calculate_rtu_frame_size.
  pose proof (len_nonneg body). pose proof (len_nonneg crc).
  destruct (Z.leb_spec (len ((packet ++ body) ++ crc)) 7) as [Hshort|_];
    [rewrite !len_app in Hshort; change (len packet) with 8 in Hshort; lia|].
  destruct (getitem_Ok ((packet ++ body) ++ crc) 7) as (x & Hnth & ->);
    [rewrite !len_app; change (len packet) with 8; lia|].
  change (nth_error ((packet ++ body) ++ crc) (Z.to_nat 7))
    with (Some h6) in Hnth.
  injection Hnth as <-.
  cbn [bind]. rewrite Hh6, Hcount.
  replace (Z.to_nat (len (information r)))
    with (length (information r)) by (unfold len; lia).
  change 8 with (len packet) at 1.
  rewrite (calculate_rtu_frame_size_loop_encoded _ _ _ crc Hloop).
  rewrite (len_app (packet ++ body) crc), Hcrc. reflexivity.
Qed.

(** X11. The estimate delimits the response in a complete frame: with [n] the
    estimate for the frame, the bytes from offset 2 up to [n - 2] (what
    is left without the address, the function code and the CRC) decode to
    the response that the frame was built from. *)
Theorem decode_frame_up_to_estimate (self r : t) (b : bytes) :
  complete_frame r b -> NoDup (keys (information r)) ->
  exists n,
    calculate_rtu_frame_size b = Ok n /\ n = len b /\
    decode self (slice b 2 (n - 2)) = Ok r.
Proof.
  intros Hframe Hnodup. exists (len b).
  split; [exact (calculate_rtu_frame_size_complete r b Hframe)|].
  split; [reflexivity|].
  destruct Hframe as (_ & address & code & pdu & crc & Hencode & Hcrc & ->).
  change (address :: code :: pdu ++ crc) with ([address; code] ++ pdu ++ crc).
  replace (len ([address; code] ++ pdu ++ crc) - 2)
    with (len [address; code] + len pdu)
    by (rewrite !len_app, Hcrc; change (len [address; code]) with 2; lia).
  change 2 with (len [address; code]) at 1.
  rewrite slice_app_mid.
  rewrite (decode_encode self r pdu Hencode).
  rewrite (setitems_fresh (information r) []) by exact Hnodup.
  destruct r; reflexivity.
Qed.

Lemma decode_frame_up_to_estimate_witness :
  exists n,
    calculate_rtu_frame_size
      [x01; x2b; x0e; x01; x83; x00; x00; x01; x00; x01; x41; xaa; xbb]
    = Ok n /\
    n = len [x01; x2b; x0e; x01; x83; x00; x00; x01; x00; x01; x41; xaa; xbb] /\
    decode (mk 0 0 [] 0 0 0 0)
      (slice [x01; x2b; x0e; x01; x83; x00; x00; x01; x00; x01; x41; xaa; xbb]
         2 (n - 2))
    = Ok (mk 0x0e 1 [(0, [x41])] 1 0x83 0 0).
Proof.
  apply (decode_frame_up_to_estimate (mk 0 0 [] 0 0 0 0)
           (mk 0x0e 1 [(0, [x41])] 1 0x83 0 0)
           [x01; x2b; x0e; x01; x83; x00; x00; x01; x00; x01; x41; xaa; xbb]).
  - split; [reflexivity|].
    exists x01, x2b, [x0e; x01; x83; x00; x00; x01; x00; x01; x41], [xaa; xbb].
    repeat split.
  - repeat constructor. simpl. tauto.
Defined.

(** X12. A complete frame is not taken for complete before its last byte: for
    every proper prefix of it the estimate is more than the prefix holds,
    and at most the length of the frame. *)
Theorem calculate_rtu_frame_size_proper_prefix (r : t) (b : bytes) (i : nat) :
  complete_frame r b -> (i < length b)%nat ->
  exists n,
    calculate_rtu_frame_size (firstn i b) = Ok n /\
    len (firstn i b) < n <= len b.
Proof.
  intros Hframe Hi.
  pose proof (calculate_rtu_frame_size_complete r b Hframe) as Hwhole.
  destruct (calculate_rtu_frame_size_mono (firstn i b) (skipn i b))
    as (n & n' & Hn & Hn' & Hle).
  rewrite firstn_skipn, Hwhole in Hn'. injection Hn' as <-.
  exists n. split; [exact Hn|]. split; [|exact Hle].
  destruct (Z_lt_dec (len (firstn i b)) n) as [|Hreached]; [assumption|].
  pose proof (calculate_rtu_frame_size_reached (firstn i b) (skipn i b) n Hn
                ltac:(lia)) as Hstable.
  rewrite firstn_skipn, Hwhole in Hstable. injection Hstable as Heq.
  unfold len in *. rewrite length_firstn in *. lia.
Qed.

Lemma calculate_rtu_frame_size_proper_prefix_witness :
  exists n,
    calculate_rtu_frame_size
      (firstn 12
         [x01; x2b; x0e; x01; x83; x00; x00; x01; x00; x01; x41; xaa; xbb])
    = Ok n /\
    len (firstn 12
           [x01; x2b; x0e; x01; x83; x00; x00; x01; x00; x01; x41; xaa; xbb])
    < n <=
    len [x01; x2b; x0e; x01; x83; x00; x00; x01; x00; x01; x41; xaa; xbb].
Proof.
  apply (calculate_rtu_frame_size_proper_prefix
           (mk 0x0e 1 [(0, [x41])] 1 0x83 0 0)
           [x01; x2b; x0e; x01; x83; x00; x00; x01; x00; x01; x41; xaa; xbb]
           12).
  - split; [reflexivity|].
    exists x01, x2b, [x0e; x01; x83; x00; x00; x01; x00; x01; x41], [xaa; xbb].
    repeat split.
  - simpl. lia.
Defined.

(** ** [execute] between [decode] and [encode] *)

Lemma dict_or_empty_Some (d : dict) : dict_or_empty (Some d) = d.
Proof. destruct d; reflexivity. Qed.

Lemma encode_Ok_encodable (r : t) (frame : bytes) :
  encode r = Ok frame -> encodable r.
Proof.
  unfold encode.
  destruct (pystruct.pack _) as [packet|e] eqn:Hpack; [|discriminate].
  cbn [bind]. intros Hloop. split.
  - exact (pack_Ok_range _ _ Hpack).
  - exact (encode_loop_Ok_inv _ _ _ Hloop).
Qed.

Section Serve.

Variable Basic : Z.
Variable Nothing : Z.
Variable get : Z -> Z -> dict.

(** X13. For a request that [decode] returned, the [object_id] check of
    [execute] cannot fail: the outcome is the [IllegalValue] indicator
    exactly when the [read_code] byte is above 4, and the response built
    from the provider's mapping otherwise. *)
Theorem execute_decoded_request (self q : Req.t) (data : bytes) :
  Req.decode self data = Ok q ->
  (Req.execute Basic Nothing get q = Req.exception_indicator IllegalValue
   <-> 4 < Req.read_code q) /\
  (Req.read_code q <= 4 ->
   Req.execute Basic Nothing get q =
   Req.response
     (__init__ Basic Nothing (Some (Req.read_code q))
        (Some (get (Req.read_code q) (Req.object_id q))))).
Proof.
  intros Hdecode.
  destruct data as [|a [|b [|c [|d rest]]]]; try discriminate.
  injection Hdecode as <-.
  cbn [Req.read_code Req.object_id].
  pose proof (Z_of_byte_range b) as Hb. pose proof (Z_of_byte_range c) as Hc.
  assert (Hresponse :
            Z_of_byte b <= 4 ->
            Req.execute Basic Nothing get
              (Req.mk (Z_of_byte a) (Z_of_byte b) (Z_of_byte c)) =
            Req.response
              (__init__ Basic Nothing (Some (Z_of_byte b))
                 (Some (get (Z_of_byte b) (Z_of_byte c))))).
  { intros Hle.
    apply (execute_in_range Basic Nothing get
             (Req.mk (Z_of_byte a) (Z_of_byte b) (Z_of_byte c)));
      cbn; lia. }
  split; [split|exact Hresponse].
  - intros Hexc. destruct (Z_lt_dec 4 (Z_of_byte b)) as [|Hle]; [assumption|].
    rewrite Hresponse in Hexc by lia. discriminate.
  - intros Hgt.
    apply (execute_read_code_out_of_range Basic Nothing get
             (Req.mk (Z_of_byte a) (Z_of_byte b) (Z_of_byte c))).
    cbn. lia.
Qed.

(** X14. The response of a successful [execute] carries the provider's mapping
    as it is and the number of its entries; its [read_code] is the one of
    the request, except that a request with [read_code] 0 gets
    [DeviceInformation.Basic]. *)
Theorem execute_response_attributes (q : Req.t) (r : t) :
  Req.execute Basic Nothing get q = Req.response r ->
  sub_function_code r = 0x0e /\
  read_code r = (if Req.read_code q =? 0 then Basic else Req.read_code q) /\
  information r = get (Req.read_code q) (Req.object_id q) /\
  number_of_objects r = len (get (Req.read_code q) (Req.object_id q)).
Proof.
  unfold Req.execute.
  destruct (negb _); [discriminate|].
  destruct (negb _); [discriminate|].
  intros [= <-]. cbn [sub_function_code read_code information
                        number_of_objects __init__ int_or].
  rewrite dict_or_empty_Some. repeat split.
Qed.

(** X15. A mapping of more than 255 entries cannot be sent: the constructor
    stores the number of entries in [number_of_objects], and [encode]
    raises [struct.error] on it. *)
Theorem encode_too_many_entries (rc : option Z) (info : dict) :
  255 < len info ->
  encode (__init__ Basic Nothing rc (Some info)) = Raise struct_error.
Proof.
  intros Hmany.
  destruct (encode (__init__ Basic Nothing rc (Some info)))
    as [frame|e] eqn:Hencode.
  - apply encode_Ok_encodable in Hencode as [Hheader _].
    cbn [sub_function_code read_code conformity more_follows next_object_id
           number_of_objects __init__] in Hheader.
    rewrite dict_or_empty_Some in Hheader.
    do 5 apply Forall_inv_tail in Hheader. apply Forall_inv in Hheader.
    lia.
  - f_equal. exact (encode_Raise _ _ Hencode).
Qed.

(** X16. From request bytes to response bytes: when the [read_code] byte is
    at most 4, the constants are single bytes and the provider's mapping is
    a dict of at most 255 entries with byte ids and payloads of at most 255
    bytes, the response of [execute] encodes into 6 bytes of header plus 2
    bytes and the payload of each entry, and the frame decodes to that
    response, with the provider's mapping as [information]. *)
Theorem serve_decoded_request (self q : Req.t) (data : bytes) :
  0 <= Basic <= 255 -> 0 <= Nothing <= 255 ->
  Req.decode self data = Ok q -> Req.read_code q <= 4 ->
  let info := get (Req.read_code q) (Req.object_id q) in
  NoDup (keys info) ->
  Forall (fun item => 0 <= fst item <= 255 /\ len (snd item) <= 255) info ->
  len info <= 255 ->
  exists r frame,
    Req.execute Basic Nothing get q = Req.response r /\
    information r = info /\
    encode r = Ok frame /\
    len frame = 6 + objects_size info /\
    (forall self', decode self' frame = Ok r).
Proof.
  intros HBasic HNothing Hdecode Hrc info Hnodup Hitems Hcount.
  destruct data as [|a [|b [|c [|d rest]]]]; try discriminate.
  injection Hdecode as <-.
  cbn [Req.read_code Req.object_id] in *.
  pose proof (Z_of_byte_range b) as Hb. pose proof (Z_of_byte_range c) as Hc.
  set (r := __init__ Basic Nothing (Some (Z_of_byte b)) (Some info)).
  assert (Hinfo : information r = info) by apply dict_or_empty_Some.
  assert (Hvalid : valid_response r).
  { split; [|split]; [|rewrite Hinfo; exact Hnodup|rewrite Hinfo; exact Hitems].
    cbn [sub_function_code read_code conformity more_follows next_object_id
           number_of_objects r __init__].
    rewrite dict_or_empty_Some.
    assert (0 <= int_or (Some (Z_of_byte b)) Basic <= 255)
      by (cbn [int_or]; destruct (Z_of_byte b =? 0); lia).
    pose proof (len_nonneg info).
    repeat constructor; lia. }
  destruct (valid_response_round_trip r Hvalid) as (frame & Hencode & Hround).
  exists r, frame. split; [|split; [exact Hinfo|split; [exact Hencode|split]]].
  - apply (execute_in_range Basic Nothing get
             (Req.mk (Z_of_byte a) (Z_of_byte b) (Z_of_byte c)));
      cbn; lia.
  - rewrite <- Hinfo. unfold encode in Hencode.
    destruct (pystruct.pack _) as [packet|e] eqn:Hpack; [|discriminate].
    cbn [bind] in Hencode. rewrite (encode_loop_len _ _ _ Hencode).
    apply pack_Ok in Hpack. apply (f_equal (@length Z)) in Hpack.
    rewrite length_map in Hpack. unfold len at 1. rewrite Hpack. reflexivity.
  - exact Hround.
Qed.

End Serve.

Lemma execute_decoded_request_witness :
  Req.execute 1 0 (fun _ _ => [(0, [x41])]) (Req.mk 0x0e 5 0xff)
  = Req.exception_indicator IllegalValue.
Proof.
  apply (proj1 (execute_decoded_request 1 0 (fun _ _ => [(0, [x41])])
                  (Req.mk 0 0 0) (Req.mk 0x0e 5 0xff) [x0e; x05; xff]
                  eq_refl)).
  reflexivity.
Defined.

Lemma execute_response_attributes_witness :
  let r := mk 0x0e 1 [(0, [x41])] 1 0x83 0 0 in
  sub_function_code r = 0x0e /\
  read_code r = 1 /\
  information r = [(0, [x41])] /\
  number_of_objects r = 1.
Proof.
  apply (execute_response_attributes 1 0 (fun _ _ => [(0, [x41])])
           (Req.mk 0x0e 0 7) (mk 0x0e 1 [(0, [x41])] 1 0x83 0 0) eq_refl).
Defined.

Lemma encode_too_many_entries_witness :
  encode (__init__ 1 0 (Some 1)
            (Some (map (fun k => (Z.of_nat k, [])) (seq 0 256))))
  = Raise struct_error.
Proof.
  apply (encode_too_many_entries 1 0 (Some 1)
           (map (fun k => (Z.of_nat k, [])) (seq 0 256))).
  reflexivity.
Defined.

Lemma serve_decoded_request_witness :
  exists r frame,
    Req.execute 1 0 (fun _ _ => [(0, [x41]); (1, [x42; x43])])
      (Req.mk 0x0e 1 0) = Req.response r /\
    information r = [(0, [x41]); (1, [x42; x43])] /\
    encode r = Ok frame /\
    len frame = 6 + objects_size [(0, [x41]); (1, [x42; x43])] /\
    (forall self', decode self' frame = Ok r).
Proof.
  apply (serve_decoded_request 1 0 (fun _ _ => [(0, [x41]); (1, [x42; x43])])
           (Req.mk 0 0 0) (Req.mk 0x0e 1 0) [x0e; x01; x00]).
  - lia.
  - lia.
  - reflexivity.
  - simpl. lia.
  - repeat constructor; simpl; intuition lia.
  - repeat constructor; simpl; unfold len; simpl; lia.
  - unfold len. simpl. lia.
Defined.

(** ** String representations *)

Section Str.

Import Stdlib.Strings.Ascii Stdlib.Strings.String.
Local Open Scope string_scope.

Lemma append_inj_l (p s s' : string) : p ++ s = p ++ s' -> s = s'.
Proof.
  induction p as [|c p IH]; cbn [append]; [tauto|].
  intros [= Heq]. exact (IH Heq).
Qed.

Lemma length_append (s t : string) :
  length (s ++ t) = (length s + length t)%nat.
Proof.
  induction s as [|c s IH]; cbn [append length]; [reflexivity|].
  rewrite IH. reflexivity.
Qed.

Lemma append_inj_r (t s s' : string) : s ++ t = s' ++ t -> s = s'.
Proof.
  revert s'. induction s as [|c s IH]; intros [|c' s'] Heq.
  - reflexivity.
  - apply (f_equal length) in Heq. cbn [append] in Heq.
    cbn [length] in Heq. rewrite length_append in Heq. lia.
  - apply (f_equal length) in Heq. cbn [append] in Heq.
    cbn [length] in Heq. rewrite length_append in Heq. lia.
  - cbn [append] in Heq. injection Heq as -> Heq.
    f_equal. exact (IH _ Heq).
Qed.

(** Two strings that agree, each cut at a character that does not occur
    before the cut, agree before and after the cut. *)
Lemma append_split_at (c : Ascii.ascii) (a a' x x' : string) :
  occurs c a = false -> occurs c a' = false ->
  a ++ String c x = a' ++ String c x' -> a = a' /\ x = x'.
Proof.
  revert a'. induction a as [|h a IH]; intros [|h' a'] Ha Ha' Heq;
    cbn [append occurs] in *.
  - injection Heq as ->. split; reflexivity.
  - injection Heq as <- _. rewrite Ascii.eqb_refl in Ha'. discriminate.
  - injection Heq as -> _. rewrite Ascii.eqb_refl in Ha. discriminate.
  - injection Heq as -> Heq.
    apply orb_false_iff in Ha as [_ Ha]. apply orb_false_iff in Ha' as [_ Ha'].
    destruct (IH _ Ha Ha' Heq) as [-> ->]. split; reflexivity.
Qed.

Lemma format_int_inj (m n : Z) : format_int m = format_int n -> m = n.
Proof.
  unfold format_int. intros Heq.
  assert (Hparse : forall z,
             DecimalString.NilZero.int_of_string
               (DecimalString.NilZero.string_of_int (Z.to_int z))
             = Some (Z.to_int z)).
  { intros z. apply DecimalString.NilZero.isi; destruct z; cbn;
      try discriminate; intros [= Hnil];
      exact (DecimalPos.Unsigned.to_uint_nonnil _ Hnil). }
  pose proof (Hparse m) as Hm. rewrite Heq, Hparse in Hm.
  injection Hm as Hm. symmetry. exact (DecimalZ.to_int_inj _ _ Hm).
Qed.

Lemma format_int_no_comma (n : Z) :
  occurs ","%char (format_int n) = false.
Proof.
  assert (Huint : forall d,
             occurs ","%char (DecimalString.NilEmpty.string_of_uint d)
             = false).
  { induction d; cbn; assumption || reflexivity. }
  assert (Hzero : forall d,
             occurs ","%char (DecimalString.NilZero.string_of_uint d)
             = false).
  { intros d. destruct d; try apply Huint. reflexivity. }
  unfold format_int. destruct (Z.to_int n) as [d|d]; cbn.
  - apply Hzero.
  - apply Hzero.
Qed.

(** X17. The representation of a response tells its [read_code]: two
    responses print alike exactly when their [read_code]s are equal. *)
Theorem response_str_read_code (r1 r2 : t) :
  __str__ r1 = __str__ r2 <-> read_code r1 = read_code r2.
Proof.
  unfold __str__. split.
  - intros Heq. apply append_inj_l, append_inj_r in Heq.
    exact (format_int_inj _ _ Heq).
  - intros ->. reflexivity.
Qed.

(** X18. The representation of a request tells its [read_code] and its
    [object_id]: two requests print alike exactly when they agree on
    both. *)
Theorem request_str_attributes (q1 q2 : Req.t) :
  Req.__str__ q1 = Req.__str__ q2 <->
  Req.read_code q1 = Req.read_code q2 /\
  Req.object_id q1 = Req.object_id q2.
Proof.
  unfold Req.__str__. split.
  - intros Heq. apply append_inj_l in Heq.
    apply append_split_at in Heq as [Hrc Hoid];
      try apply format_int_no_comma.
    apply append_inj_r in Hoid.
    split; apply format_int_inj; assumption.
  - intros [-> ->]. reflexivity.
Qed.

End Str.
